(** * proj2_nps: the cache, the key builder, the fetchers and the extractors

    A shallow embedding of [proj2_nps.py].  Python values are an inductive
    type, dictionaries are insertion-ordered association lists, the cache
    dictionaries live in a small object store (they are shared by reference),
    and every function that touches the disk, the network, the clock or the
    terminal is a computation in a state-and-exception monad over a [world]
    that also records a trace of the effects performed.

    Strings are byte strings: a Python [str] is its UTF-8 encoding, which
    keeps the order of code points.  [strip] removes the white space of
    Python, inside and outside ASCII; [lower] is computed on ASCII strings and
    is the interpreter's table of case mappings, a parameter, on the others;
    [isnumeric] and [int] are those of ASCII input, and the statements about
    the prompt are about such input.  The libraries the program calls
    ([json], [requests], [bs4]) and the key in [secrets] are parameters. *)

From Stdlib Require Import String Ascii List ZArith Bool Lia.
From stdpp Require Import base list strings sorting pretty.

Set Warnings "-register-all".
Local Open Scope string_scope.
Local Open Scope Z_scope.

(** * Python values *)

(** A float is kept symbolically; the program only ever tests it for
    truthiness and formats it. *)
Inductive pyfloat :=
| FNan
| FInf (negative : bool)
| FFinite (negative : bool) (mantissa : N) (exponent : Z).

(** The JSON-shaped values the program manipulates. A [PDict] keeps its items
    in insertion order, as Python dictionaries do. *)
Inductive pyval :=
| PNone
| PBool (b : bool)
| PInt (n : Z)
| PFloat (f : pyfloat)
| PStr (s : string)
| PList (l : list pyval)
| PDict (d : list (string * pyval)).

Abbreviation dict V := (list (string * V)).

Inductive exn :=
| AttributeError
| KeyError
| IndexError
| TypeError
| ValueError
| JSONDecodeError
| FileNotFoundError
| PermissionError
| UnicodeDecodeError
| ConnectionError.

Inductive res (A : Type) :=
| Ok (a : A)
| Raise (e : exn).
Arguments Ok {A} a.
Arguments Raise {A} e.

(** ** Dictionaries *)

(** [d[k]] as an option. *)
Fixpoint dict_get {V} (k : string) (d : dict V) : option V :=
  match d with
  | [] => None
  | (k', v) :: d' => if String.eqb k k' then Some v else dict_get k d'
  end.

(** [d[k] = v]: an existing key keeps its position, a new key goes last. *)
Fixpoint dict_set {V} (k : string) (v : V) (d : dict V) : dict V :=
  match d with
  | [] => [(k, v)]
  | (k', v') :: d' =>
      if String.eqb k k' then (k, v) :: d' else (k', v') :: dict_set k v d'
  end.

(** [d.keys()] *)
Definition dict_keys {V} (d : dict V) : list string := map fst d.

(** [k in d.keys()] *)
Definition dict_has {V} (k : string) (d : dict V) : bool :=
  existsb (String.eqb k) (dict_keys d).

(** ** Truthiness, [len], subscripting *)

Definition float_truthy (f : pyfloat) : bool :=
  match f with
  | FFinite _ m _ => negb (N.eqb m 0)
  | _ => true
  end.

(** [bool(v)] *)
Definition truthy (v : pyval) : bool :=
  match v with
  | PNone => false
  | PBool b => b
  | PInt n => negb (Z.eqb n 0)
  | PFloat f => float_truthy f
  | PStr s => negb (String.eqb s EmptyString)
  | PList l => match l with [] => false | _ => true end
  | PDict d => match d with [] => false | _ => true end
  end.

(** [v[k]] for a string subscript [k]. *)
Definition py_getitem (v : pyval) (k : string) : res pyval :=
  match v with
  | PDict d => match dict_get k d with Some x => Ok x | None => Raise KeyError end
  | _ => Raise TypeError
  end.

(** [v[k] = x] for a string subscript [k]. *)
Definition py_setitem (v : pyval) (k : string) (x : pyval) : res pyval :=
  match v with
  | PDict d => Ok (PDict (dict_set k x d))
  | _ => Raise TypeError
  end.

(** [v.keys()] *)
Definition py_keys (v : pyval) : res (list string) :=
  match v with
  | PDict d => Ok (dict_keys d)
  | _ => Raise AttributeError
  end.

(** [len(v)] *)
Definition py_len (v : pyval) : res nat :=
  match v with
  | PList l => Ok (length l)
  | PDict d => Ok (length d)
  | PStr s => Ok (String.length s)
  | _ => Raise TypeError
  end.

(** [v[i]] for [i] taken from [range(len(v))]. *)
Definition py_getindex (v : pyval) (i : nat) : res pyval :=
  match v with
  | PList l => match l !! i with Some x => Ok x | None => Raise IndexError end
  | PStr s =>
      match String.get i s with
      | Some c => Ok (PStr (String c EmptyString))
      | None => Raise IndexError
      end
  | PDict _ => Raise KeyError
  | _ => Raise TypeError
  end.

(** * The world *)

(** What the program did to its environment, oldest first. [EvOpenRead] is
    an attempt to open the cache file for reading, [EvWrite] the replacement
    of its content. *)
Inductive event :=
| EvOpenRead
| EvWrite (contents : string)
| EvSleep (seconds : nat)
| EvGet (url : string) (params : dict pyval)
| EvPrint (line : string).

Definition CACHE_FILE_NAME : string := "nps_cache.json".

(** The file [CACHE_FILE_NAME], the only one the program opens. [Locked]
    cannot be opened at all; [Binary] opens but its bytes do not decode, so
    reading it fails. *)
Inductive file_state :=
| Absent
| Locked
| Binary
| Content (s : string).

(** [soup] trees, as [bs4] builds them: an attribute is a string, except the
    multi-valued ones ([class]), which are lists of strings. *)
Inductive attr_val :=
| AStr (s : string)
| AList (l : list string).

Inductive node :=
| NText (s : string)
| NTag (name : string) (attrs : dict attr_val) (children : list node).

(** The libraries and the environment the program is linked against. *)
Class Externals := {
  (** [repr] on the values whose [str] is their [repr] *)
  py_repr : pyval → string;
  (** [json.dumps] *)
  json_dumps : pyval → string;
  (** [json.loads]; [None] when it raises *)
  json_loads : string → option pyval;
  (** [requests.get(url, params)]: the body of the reply, which may depend on
      everything that happened before; [None] when the request raises *)
  requests_get : list event → string → dict pyval → option string;
  (** [BeautifulSoup(markup, 'html.parser')] *)
  BeautifulSoup : pyval → res node;
  (** [secrets.API_KEY] *)
  API_KEY : string;
  (** [s.lower()] for an [s] with a character outside ASCII *)
  unicode_lower : string → string
}.

(** * The cache key builder *)

(** [str(v)], as an f-string applies it. *)
Definition py_str `{Externals} (v : pyval) : string :=
  match v with
  | PNone => "None"
  | PBool true => "True"
  | PBool false => "False"
  | PInt n => pretty n
  | PStr s => s
  | _ => py_repr v
  end.

Definition connector : string := "_".

(** [params[k]] for a [k] drawn from [params.keys()]. *)
Definition param_string `{Externals} (params : dict pyval) (k : string) : string :=
  k ++ "_" ++ from_option py_str EmptyString (dict_get k params).

(** [param_strings.sort()] is the sorted permutation of the fragments: the
    order on strings is total and antisymmetric, so every sorting algorithm
    returns the same list. *)
Definition construct_unique_key `{Externals}
    (baseurl : string) (params : dict pyval) : string :=
  let param_strings := map (param_string params) (dict_keys params) in
  let param_strings := merge_sort String.le param_strings in
  baseurl ++ connector ++ String.concat connector param_strings.

(** * Computations *)

Record world := World {
  cache_file : file_state;     (** the file [nps_cache.json] *)
  heap : list pyval;           (** the dictionaries allocated so far *)
  CACHE_DICT : nat;            (** the module-level name [CACHE_DICT] *)
  trace : list event
}.

#[global] Instance res_ret : MRet res := @Ok.
#[global] Instance res_bind : MBind res := λ A B k r,
  match r with
  | Ok a => k a
  | Raise e => Raise e
  end.
#[global] Instance res_fmap : FMap res := λ A B f r,
  match r with
  | Ok a => Ok (f a)
  | Raise e => Raise e
  end.

(** [try: r  except: d] for a computation without effects. *)
Definition res_try {A} (r : res A) (d : A) : A :=
  match r with
  | Ok a => a
  | Raise _ => d
  end.

(** A computation returns or raises, and leaves a world behind either way. *)
Definition M (A : Type) : Type := world → res A * world.

#[global] Instance M_ret : MRet M := λ A a w, (Ok a, w).
#[global] Instance M_bind : MBind M := λ A B k c w,
  match c w with
  | (Ok a, w') => k a w'
  | (Raise e, w') => (Raise e, w')
  end.

Definition lift {A} (r : res A) : M A := λ w, (r, w).

(** [try: c  except: h], with Python's bare [except]. *)
Definition try_except {A} (c h : M A) : M A := λ w,
  match c w with
  | (Ok a, w') => (Ok a, w')
  | (Raise _, w') => h w'
  end.

Definition emit (e : event) : M unit := λ w,
  (Ok (), World (cache_file w) (heap w) (CACHE_DICT w) (trace w ++ [e])).

Definition print (line : string) : M unit := emit (EvPrint line).
Definition sleep (seconds : nat) : M unit := emit (EvSleep seconds).

(** A new dictionary object. *)
Definition alloc (v : pyval) : M nat := λ w,
  (Ok (length (heap w)),
   World (cache_file w) (heap w ++ [v]) (CACHE_DICT w) (trace w)).

Definition deref (l : nat) : M pyval := λ w,
  (Ok (from_option id PNone (heap w !! l)), w).

Definition store (l : nat) (v : pyval) : M unit := λ w,
  (Ok (), World (cache_file w) (<[l := v]> (heap w)) (CACHE_DICT w) (trace w)).

Definition get_global : M nat := λ w, (Ok (CACHE_DICT w), w).

Definition set_global (l : nat) : M unit := λ w,
  (Ok (), World (cache_file w) (heap w) l (trace w)).

(** [open(CACHE_FILE_NAME, 'r').read()] *)
Definition file_read : M string := λ w,
  let w' := World (cache_file w) (heap w) (CACHE_DICT w) (trace w ++ [EvOpenRead]) in
  match cache_file w with
  | Absent => (Raise FileNotFoundError, w')
  | Locked => (Raise PermissionError, w')
  | Binary => (Raise UnicodeDecodeError, w')
  | Content s => (Ok s, w')
  end.

(** [open(CACHE_FILE_NAME, 'w').write(s)]: the file is replaced. *)
Definition file_write (s : string) : M unit := λ w,
  match cache_file w with
  | Locked => (Raise PermissionError, w)
  | _ => (Ok (), World (Content s) (heap w) (CACHE_DICT w) (trace w ++ [EvWrite s]))
  end.

(** [requests.get(url, params)], giving the body of the reply. *)
Definition http_get `{Externals} (url : string) (params : dict pyval) : M string := λ w,
  let w' := World (cache_file w) (heap w) (CACHE_DICT w)
              (trace w ++ [EvGet url params]) in
  match requests_get (trace w) url params with
  | Some body => (Ok body, w')
  | None => (Raise ConnectionError, w')
  end.

Definition loads `{Externals} (s : string) : res pyval :=
  match json_loads s with
  | Some v => Ok v
  | None => Raise JSONDecodeError
  end.

(** * The persistent cache *)

Definition open_cache `{Externals} : M nat :=
  cache ← try_except
    (cache_file_contents ← file_read;
     lift (loads cache_file_contents))
    (mret (PDict []));
  alloc cache.

Definition save_cache `{Externals} (cache : nat) : M unit :=
  c ← deref cache;
  file_write (json_dumps c).

(** [cache[key] = value; save_cache(cache)]: the two statements that both
    fetchers run on a miss (lines 84-85 and 279-280). *)
Definition put `{Externals} (cache : nat) (key : string) (value : pyval) : M unit :=
  c ← deref cache;
  c' ← lift (py_setitem c key value);
  store cache c';;
  save_cache cache.

Definition make_url_request_using_cache `{Externals}
    (url : string) (cache : nat) : M pyval :=
  c ← deref cache;
  keys ← lift (py_keys c);
  if existsb (String.eqb url) keys then
    print "Using cache";;
    c ← deref cache;
    lift (py_getitem c url)
  else
    print "Fetching";;
    sleep 1;;
    response ← http_get url [];
    put cache url (PStr response);;
    c ← deref cache;
    lift (py_getitem c url).

(** The module-level statements of lines 17 and 88. *)
Definition module_init `{Externals} : M unit :=
  l ← alloc (PDict []);
  set_global l;;
  l ← open_cache;
  set_global l.

(** * Strings *)

(** The ASCII characters [str.strip] removes. *)
Definition is_py_space (c : ascii) : bool :=
  let n := nat_of_ascii c in
  ((9 <=? n) && (n <=? 13) || (28 <=? n) && (n <=? 32))%nat.

(** The other characters [str.strip] removes, in UTF-8: U+0085 and U+00A0
    take two bytes, *)
Definition is_py_space2 (c1 c2 : ascii) : bool :=
  let n1 := nat_of_ascii c1 in
  let n2 := nat_of_ascii c2 in
  ((n1 =? 194) && ((n2 =? 133) || (n2 =? 160)))%nat.

(** and U+1680, U+2000 to U+200A, U+2028, U+2029, U+202F, U+205F and U+3000
    take three. *)
Definition is_py_space3 (c1 c2 c3 : ascii) : bool :=
  let n1 := nat_of_ascii c1 in
  let n2 := nat_of_ascii c2 in
  let n3 := nat_of_ascii c3 in
  ((n1 =? 225) && (n2 =? 154) && (n3 =? 128)
   || (n1 =? 226) && (n2 =? 128)
      && ((128 <=? n3) && (n3 <=? 138) || (n3 =? 168) || (n3 =? 169) || (n3 =? 175))
   || (n1 =? 226) && (n2 =? 129) && (n3 =? 159)
   || (n1 =? 227) && (n2 =? 128) && (n3 =? 128))%nat.

(** The white space at the front of [s] removed; with [backwards], [s] is a
    string read from its end, where the bytes of a character come in the
    opposite order. *)
Fixpoint strip_front (backwards : bool) (s : string) : string :=
  match s with
  | String c1 s1 =>
      if is_py_space c1 then strip_front backwards s1
      else
        match s1 with
        | String c2 s2 =>
            if (if backwards then is_py_space2 c2 c1 else is_py_space2 c1 c2)
            then strip_front backwards s2
            else
              match s2 with
              | String c3 s3 =>
                  if (if backwards then is_py_space3 c3 c2 c1
                      else is_py_space3 c1 c2 c3)
                  then strip_front backwards s3
                  else s
              | EmptyString => s
              end
        | EmptyString => s
        end
  | EmptyString => EmptyString
  end.

Definition lstrip (s : string) : string := strip_front false s.

Definition rstrip (s : string) : string :=
  String.rev (strip_front true (String.rev s)).

(** [s.strip()] *)
Definition strip (s : string) : string := rstrip (lstrip s).

(** [s.isascii()] *)
Definition is_ascii (s : string) : bool :=
  forallb (λ c, (nat_of_ascii c <? 128)%nat) (list_ascii_of_string s).

Definition lower_char (c : ascii) : ascii :=
  let n := nat_of_ascii c in
  if ((65 <=? n) && (n <=? 90))%nat then ascii_of_nat (n + 32) else c.

(** [s.lower()] for an ASCII [s] *)
Fixpoint lower_ascii (s : string) : string :=
  match s with
  | String c s' => String (lower_char c) (lower_ascii s')
  | EmptyString => EmptyString
  end.

(** [s.lower()] *)
Definition lower `{Externals} (s : string) : string :=
  if is_ascii s then lower_ascii s else unicode_lower s.

Definition is_digit (c : ascii) : bool :=
  let n := nat_of_ascii c in
  ((48 <=? n) && (n <=? 57))%nat.

(** [s.isnumeric()] for an ASCII [s] *)
Definition isnumeric (s : string) : bool :=
  negb (String.eqb s EmptyString) && forallb is_digit (list_ascii_of_string s).

(** [int(s)] for an [s] made of ASCII digits. *)
Definition int (s : string) : Z :=
  fold_left (λ acc c, 10 * acc + (Z.of_nat (nat_of_ascii c) - 48))
    (list_ascii_of_string s) 0.

(** [s * n] *)
Fixpoint str_mul (s : string) (n : nat) : string :=
  match n with
  | O => EmptyString
  | S n' => s ++ str_mul s n'
  end.

(** [l[i]], where a negative [i] counts from the end. *)
Definition list_index {A} (l : list A) (i : Z) : res A :=
  let j := if i <? 0 then i + Z.of_nat (length l) else i in
  if j <? 0 then Raise IndexError
  else match l !! Z.to_nat j with
       | Some x => Ok x
       | None => Raise IndexError
       end.

(** * Documents *)

(** The nodes below [n], in document order. *)
Fixpoint descendants (n : node) : list node :=
  match n with
  | NText _ => []
  | NTag _ _ children =>
      (fix go (cs : list node) : list node :=
         match cs with
         | [] => []
         | c :: cs' => (c :: descendants c ++ go cs')%list
         end) children
  end.

(** [n.text] *)
Fixpoint get_text (n : node) : string :=
  match n with
  | NText s => s
  | NTag _ _ children =>
      (fix go (cs : list node) : string :=
         match cs with
         | [] => EmptyString
         | c :: cs' => get_text c ++ go cs'
         end) children
  end.

(** How [bs4] compares an attribute with the string searched for: a
    multi-valued attribute matches through one of its values or through its
    values joined by a space. *)
Definition attr_matches (target : string) (v : attr_val) : bool :=
  match v with
  | AStr s => String.eqb s target
  | AList l =>
      existsb (λ s, String.eqb s target) l || String.eqb (String.concat " " l) target
  end.

(** The test behind [find(name, attr=value)]; either filter may be left out. *)
Definition tag_matches (name : option string) (attr : option (string * string))
    (n : node) : bool :=
  match n with
  | NText _ => false
  | NTag nm attrs _ =>
      match name with
      | Some x => String.eqb nm x
      | None => true
      end &&
      match attr with
      | Some (a, target) =>
          match dict_get a attrs with
          | Some v => attr_matches target v
          | None => false
          end
      | None => true
      end
  end.

Definition find_all (name : option string) (attr : option (string * string))
    (n : node) : list node :=
  filter (λ x, tag_matches name attr x = true) (descendants n).

(** [n.find(...)]: the first match, or Python's [None]. *)
Definition find (name : option string) (attr : option (string * string))
    (n : node) : option node :=
  head (find_all name attr n).

(** [t.text], where [t] may be [None]. *)
Definition text_of (t : option node) : res string :=
  match t with
  | Some n => Ok (get_text n)
  | None => Raise AttributeError
  end.

(** [t.find_all(name)], where [t] may be [None]. *)
Definition find_all_of (t : option node) (name : string) : res (list node) :=
  match t with
  | Some n => Ok (find_all (Some name) None n)
  | None => Raise AttributeError
  end.

(** [t[a]], where [t] may be [None]. *)
Definition attr_of (t : option node) (a : string) : res attr_val :=
  match t with
  | Some (NTag _ attrs _) =>
      match dict_get a attrs with
      | Some v => Ok v
      | None => Raise KeyError
      end
  | _ => Raise TypeError
  end.

(** [BASE_URL + v] *)
Definition str_add (s : string) (v : attr_val) : res string :=
  match v with
  | AStr p => Ok (s ++ p)
  | AList _ => Raise TypeError
  end.

Definition BASE_URL : string := "https://www.nps.gov".
Definition STATES_INDEX_PATH : string := "/index.htm".

(** * The extractors *)

Record NationalSite := mkNationalSite {
  category : string;
  name : string;
  address : string;
  zipcode : string;
  phone : string
}.

(** [NationalSite.info] *)
Definition info (self : NationalSite) : string :=
  name self ++ " (" ++ category self ++ "): " ++ address self ++ " " ++ zipcode self.

(** One turn of the loop of [build_state_url_dict]. *)
Definition state_entry `{Externals} (states_dict : dict string) (state : node) :
    res (dict string) :=
  let state_link_tag := find (Some "a") None state in
  state_url_path ← attr_of state_link_tag "href";
  state_url ← str_add BASE_URL state_url_path;
  state_name ← (λ t, lower (strip t)) <$> text_of state_link_tag;
  mret (dict_set state_name state_url states_dict).

(** [for x in xs: acc = body(acc, x)], stopping at the first exception. *)
Fixpoint res_fold {A B} (body : B → A → res B) (acc : B) (xs : list A) : res B :=
  match xs with
  | [] => Ok acc
  | x :: xs' => acc' ← body acc x; res_fold body acc' xs'
  end.

(** The part of [build_state_url_dict] that reads the parsed index page. *)
Definition extract_region_index `{Externals} (soup : node) : res (dict string) :=
  let states_dict := [] in
  let states_dropdown :=
    find None (Some ("class", "dropdown-menu SearchBar-keywordSearch")) soup in
  states_list ← find_all_of states_dropdown "li";
  res_fold state_entry states_dict states_list.

Definition build_state_url_dict `{Externals} : M (dict string) :=
  let index_url := BASE_URL ++ STATES_INDEX_PATH in
  cache ← get_global;
  index_text ← make_url_request_using_cache index_url cache;
  soup ← lift (BeautifulSoup index_text);
  lift (extract_region_index soup).

(** The part of [get_site_instance] that reads the parsed site page. *)
Definition extract_site_record (site_soup : node) : res NationalSite :=
  site_name ← strip <$> text_of (find None (Some ("class", "Hero-title")) site_soup);
  site_category ←
    strip <$> text_of (find None (Some ("class", "Hero-designation")) site_soup);
  let site_address :=
    res_try
      (site_city ← strip <$>
         text_of (find (Some "span") (Some ("itemprop", "addressLocality")) site_soup);
       site_state ← strip <$>
         text_of (find (Some "span") (Some ("itemprop", "addressRegion")) site_soup);
       mret (site_city ++ ", " ++ site_state))
      "No address" in
  let site_zip :=
    res_try
      (strip <$> text_of (find (Some "span") (Some ("itemprop", "postalCode")) site_soup))
      "No zipcode" in
  site_phone ←
    strip <$> text_of (find (Some "span") (Some ("itemprop", "telephone")) site_soup);
  mret (mkNationalSite site_category site_name site_address site_zip site_phone).

Definition get_site_instance `{Externals} (site_url : string) : M NationalSite :=
  cache ← get_global;
  site_text ← make_url_request_using_cache site_url cache;
  site_soup ← lift (BeautifulSoup site_text);
  lift (extract_site_record site_soup).

(** [for x in xs: acc = body(acc, x)] for a body with effects. *)
Fixpoint M_fold {A B} (body : B → A → M B) (acc : B) (xs : list A) : M B :=
  match xs with
  | [] => mret acc
  | x :: xs' => acc' ← body acc x; M_fold body acc' xs'
  end.

Definition get_sites_for_state `{Externals} (state_url : string) : M (list NationalSite) :=
  let list_of_sites : list NationalSite := [] in
  cache ← get_global;
  state_text ← make_url_request_using_cache state_url cache;
  state_soup ← lift (BeautifulSoup state_text);
  let parks :=
    find_all (Some "div")
      (Some ("class", "col-md-9 col-sm-9 col-xs-12 table-cell list_left")) state_soup in
  M_fold (λ list_of_sites park,
      let park_link_tag := find (Some "a") None park in
      park_path ← lift (attr_of park_link_tag "href");
      park_url ← lift (str_add BASE_URL park_path);
      site_instance ← get_site_instance park_url;
      mret ((list_of_sites ++ [site_instance])%list))
    list_of_sites parks.

(** * Nearby places *)

Definition mapquest_url : string := "http://www.mapquestapi.com/search/v2/radius".

Definition nearby_params `{Externals} (site_object : NationalSite) : dict pyval :=
  [("key", PStr API_KEY);
   ("origin", PStr (zipcode site_object));
   ("radius", PInt 10);
   ("units", PStr "m");
   ("maxMatches", PInt 10);
   ("ambiguities", PStr "ignore");
   ("outFormat", PStr "json")].

(** The name [CACHE_DICT] assigned in the body is local to the function. *)
Definition get_nearby_places `{Externals} (site_object : NationalSite) : M pyval :=
  let params := nearby_params site_object in
  CACHE_DICT ← open_cache;
  let uniq_key := construct_unique_key mapquest_url params in
  c ← deref CACHE_DICT;
  keys ← lift (py_keys c);
  if existsb (String.eqb uniq_key) keys then
    print "Using Cache";;
    c ← deref CACHE_DICT;
    lift (py_getitem c uniq_key)
  else
    print "Fetching";;
    body ← http_get mapquest_url params;
    reply ← lift (loads body);
    put CACHE_DICT uniq_key reply;;
    c ← deref CACHE_DICT;
    lift (py_getitem c uniq_key).

(** What one line of [formatted_nearby_places] shows. *)
Record NearbyPlace := mkNearbyPlace {
  place_name : pyval;
  place_category : pyval;
  place_address : pyval;
  place_city : pyval
}.

(** [results[i]['fields'][k]] *)
Definition field (results : pyval) (i : nat) (k : string) : res pyval :=
  r ← py_getindex results i;
  fields ← py_getitem r "fields";
  py_getitem fields k.

(** The assignments of one turn of the loop of [formatted_nearby_places]. *)
Definition nearby_place (results : pyval) (i : nat) : res NearbyPlace :=
  name ← field results i "name";
  g ← field results i "group_sic_code_ext";
  category ←
    (if truthy g then field results i "group_sic_code_name_ext"
     else mret (PStr "no category"));
  a ← field results i "address";
  address ←
    (if truthy a then field results i "address" else mret (PStr "no address"));
  c ← field results i "city";
  city ←
    (if truthy c then field results i "city" else mret (PStr "no city"));
  mret (mkNearbyPlace name category address city).

Definition place_line `{Externals} (p : NearbyPlace) : string :=
  "- " ++ py_str (place_name p) ++ " (" ++ py_str (place_category p) ++ "): "
       ++ py_str (place_address p) ++ ", " ++ py_str (place_city p).

Definition formatted_nearby_places `{Externals} (api_resp : pyval) : M unit :=
  results ← lift (py_getitem api_resp "searchResults");
  n ← lift (py_len results);
  M_fold (λ _ i, p ← lift (nearby_place results i); print (place_line p))
    () (seq 0 n).

(** * The selection prompt *)

(** What the enclosing [while True] does after its body. *)
Inductive ctl :=
| Break
| Continue.

(** Lines 366-370: what the prompt does with the site it selected. *)
Definition show_nearby `{Externals} (choice_index : NationalSite) : M ctl :=
  nearby_list ← get_nearby_places choice_index;
  print (str_mul "-" 50);;
  print ("Places near " ++ name choice_index);;
  print (str_mul "-" 50);;
  formatted_nearby_places nearby_list;;
  mret Continue.

(** The body of the inner loop of the main program, for the line
    [user_input] read by [input]. *)
Definition choose_site `{Externals}
    (user_input : string) (state_sites : list NationalSite) : M ctl :=
  try_except
    (if String.eqb user_input "exit" then mret Break
     else if String.eqb user_input "back" then mret Break
     else if isnumeric user_input then
       if int user_input <=? Z.of_nat (length state_sites) then
         choice_index ← lift (list_index state_sites (int user_input - 1));
         show_nearby choice_index
       else
         print "Index out of range. Please enter a new number";;
         mret Continue
     else mret Break)
    (print "Error - please try again.";;
     mret Continue).

(** * Reading traces *)

Definition is_get (e : event) : bool :=
  match e with EvGet _ _ => true | _ => false end.
Definition is_sleep (e : event) : bool :=
  match e with EvSleep _ => true | _ => false end.
Definition is_write (e : event) : bool :=
  match e with EvWrite _ => true | _ => false end.
Definition is_open_read (e : event) : bool :=
  match e with EvOpenRead => true | _ => false end.

(** How many events of a kind a trace holds. *)
Definition count (kind : event → bool) (t : list event) : nat :=
  length (filter (λ e, kind e = true) t).

(** The world [w] after the events [es]. *)
Definition logged (w : world) (es : list event) : world :=
  World (cache_file w) (heap w) (CACHE_DICT w) (trace w ++ es).

(** The world [w] after the allocation of [v]. *)
Definition grown (w : world) (v : pyval) : world :=
  World (cache_file w) (heap w ++ [v]) (CACHE_DICT w) (trace w).

(** [key] is a key of the dictionary at [cache]. *)
Definition cached (key : string) (cache : nat) (w : world) : bool :=
  match heap w !! cache with
  | Some (PDict d) => dict_has key d
  | _ => false
  end.

(** What [open_cache] finds on the disk. *)
Definition on_disk `{Externals} (w : world) : pyval :=
  match cache_file w with
  | Content s => from_option id (PDict []) (json_loads s)
  | _ => PDict []
  end.

(** The world a URL miss leaves behind when the request and the flush succeed. *)
Definition after_url_miss `{Externals} (url body : string) (cache : nat) (d : dict pyval)
    (w : world) : world :=
  let c' := PDict (dict_set url (PStr body) d) in
  World (Content (json_dumps c')) (<[cache := c']> (heap w)) (CACHE_DICT w)
    (trace w ++ [EvPrint "Fetching"; EvSleep 1; EvGet url []; EvWrite (json_dumps c')]).

(** The world an API miss leaves behind when the request, the decoding of the
    reply and the flush succeed. *)
Definition after_api_miss `{Externals} (site : NationalSite) (reply : pyval)
    (d : dict pyval) (w : world) : world :=
  let key := construct_unique_key mapquest_url (nearby_params site) in
  let c' := PDict (dict_set key reply d) in
  World (Content (json_dumps c')) (heap w ++ [c']) (CACHE_DICT w)
    (trace w ++ [EvOpenRead; EvPrint "Fetching";
                 EvGet mapquest_url (nearby_params site); EvWrite (json_dumps c')]).

(** The key of [site] is in the dictionary the cache file holds. *)
Definition disk_cached `{Externals} (site : NationalSite) (w : world) : bool :=
  match on_disk w with
  | PDict d => dict_has (construct_unique_key mapquest_url (nearby_params site)) d
  | _ => false
  end.

(** The display text and the link of an entry of the region dropdown. *)
Definition entry_of (state : node) : option (string * string) :=
  match find (Some "a") None state with
  | Some (NTag _ attrs _ as a) =>
      match dict_get "href" attrs with
      | Some (AStr path) => Some (get_text a, path)
      | _ => None
      end
  | _ => None
  end.

(** The entry a dropdown item adds to the region index. *)
Definition add_entry `{Externals} (states_dict : dict string) (e : string * string) :
    dict string :=
  dict_set (lower (strip e.1)) (BASE_URL ++ e.2) states_dict.

(** The markers [extract_site_record] looks for. *)
Definition title_tag (soup : node) : option node :=
  find None (Some ("class", "Hero-title")) soup.
Definition designation_tag (soup : node) : option node :=
  find None (Some ("class", "Hero-designation")) soup.
Definition locality_tag (soup : node) : option node :=
  find (Some "span") (Some ("itemprop", "addressLocality")) soup.
Definition region_tag (soup : node) : option node :=
  find (Some "span") (Some ("itemprop", "addressRegion")) soup.
Definition postal_tag (soup : node) : option node :=
  find (Some "span") (Some ("itemprop", "postalCode")) soup.
Definition telephone_tag (soup : node) : option node :=
  find (Some "span") (Some ("itemprop", "telephone")) soup.

(** [w'] differs from [w] at most in the dictionary at [g], in the cache file
    and in events that are not reads of the cache file: the name [CACHE_DICT]
    is bound as before, nothing was allocated, and every other object is as it
    was. *)
Definition same_but (g : nat) (w w' : world) : Prop :=
  count is_open_read (trace w') = count is_open_read (trace w) ∧
  CACHE_DICT w' = CACHE_DICT w ∧
  List.length (heap w') = List.length (heap w) ∧
  ∀ l, l ≠ g → heap w' !! l = heap w !! l.

(** A computation that works on the dictionary at [g] alone. *)
Definition works_on {A} (g : nat) (c : M A) : Prop :=
  ∀ w, same_but g w (c w).2.

(** A computation that works on the dictionary bound to [CACHE_DICT] alone. *)
Definition uses_global_cache {A} (c : M A) : Prop :=
  ∀ w, same_but (CACHE_DICT w) w (c w).2.

(** [c] begins with the fetch of [url] through the dictionary bound to
    [CACHE_DICT] and goes on with [k]: a page that this dictionary holds is
    taken from it, with one line printed; a page that it lacks is requested,
    stored into this very dictionary, which is then flushed to the file. *)
Definition fetches_through_CACHE_DICT `{Externals} {A}
    (url : string) (k : pyval → M A) (c : M A) : Prop :=
  ∀ w d, heap w !! CACHE_DICT w = Some (PDict d) →
    (∀ page, dict_get url d = Some page →
       c w = k page (logged w [EvPrint "Using cache"])) ∧
    (∀ body, dict_get url d = None →
       requests_get (trace w ++ [EvPrint "Fetching"; EvSleep 1]) url [] = Some body →
       cache_file w ≠ Locked →
       c w = k (PStr body) (after_url_miss url body (CACHE_DICT w) d w)).

(** * A stand-in environment for the examples

    A small JSON codec (no floats, no escape sequences), a network that always
    answers with an empty result list, and a parser that knows one page. The
    examples are about ASCII strings, so the case mappings outside ASCII are
    not consulted. *)
Module Fixture.

Definition quote : ascii := "034"%char.

Fixpoint dumps (v : pyval) : string :=
  match v with
  | PNone => "null"
  | PBool true => "true"
  | PBool false => "false"
  | PInt n => pretty n
  | PFloat _ => "NaN"
  | PStr s => String quote (s ++ String quote EmptyString)
  | PList l =>
      "[" ++ (fix go (l : list pyval) : string :=
                match l with
                | [] => EmptyString
                | [x] => dumps x
                | x :: l' => dumps x ++ ", " ++ go l'
                end) l ++ "]"
  | PDict d =>
      "{" ++ (fix go (d : dict pyval) : string :=
                match d with
                | [] => EmptyString
                | [(k, x)] => String quote (k ++ String quote (": " ++ dumps x))
                | (k, x) :: d' =>
                    String quote (k ++ String quote (": " ++ dumps x)) ++ ", " ++ go d'
                end) d ++ "}"
  end.

Fixpoint skip_ws (s : string) : string :=
  match s with
  | String c s' => if Ascii.is_space c then skip_ws s' else s
  | EmptyString => EmptyString
  end.

(** The characters up to the closing quote, and what follows it. *)
Fixpoint read_string (s : string) : option (string * string) :=
  match s with
  | EmptyString => None
  | String c s' =>
      if Ascii.eqb c quote then Some (EmptyString, s')
      else '(x, r) ← read_string s'; Some (String c x, r)
  end.

Fixpoint read_digits (acc : Z) (s : string) : Z * string :=
  match s with
  | String c s' =>
      if is_digit c
      then read_digits (10 * acc + (Z.of_nat (nat_of_ascii c) - 48)) s'
      else (acc, s)
  | EmptyString => (acc, s)
  end.

Fixpoint drop_prefix (p s : string) : option string :=
  match p, s with
  | EmptyString, _ => Some s
  | String a p', String b s' => if Ascii.eqb a b then drop_prefix p' s' else None
  | _, EmptyString => None
  end.

Fixpoint parse (fuel : nat) (s : string) : option (pyval * string) :=
  match fuel with
  | O => None
  | S fuel' =>
      match skip_ws s with
      | EmptyString => None
      | String c r =>
          if Ascii.eqb c quote then
            '(x, r') ← read_string r; Some (PStr x, r')
          else if Ascii.eqb c "["%char then
            match skip_ws r with
            | String "]"%char r' => Some (PList [], r')
            | _ => '(l, r') ← parse_elems fuel' r; Some (PList l, r')
            end
          else if Ascii.eqb c "{"%char then
            match skip_ws r with
            | String "}"%char r' => Some (PDict [], r')
            | _ => '(d, r') ← parse_members fuel' r; Some (PDict d, r')
            end
          else if Ascii.eqb c "-"%char then
            let '(n, r') := read_digits 0 r in Some (PInt (- n), r')
          else if is_digit c then
            let '(n, r') := read_digits 0 (String c r) in Some (PInt n, r')
          else
            match drop_prefix "null" (String c r),
                  drop_prefix "true" (String c r),
                  drop_prefix "false" (String c r) with
            | Some r', _, _ => Some (PNone, r')
            | _, Some r', _ => Some (PBool true, r')
            | _, _, Some r' => Some (PBool false, r')
            | _, _, _ => None
            end
      end
  end
with parse_elems (fuel : nat) (s : string) : option (list pyval * string) :=
  match fuel with
  | O => None
  | S fuel' =>
      '(v, r) ← parse fuel' s;
      match skip_ws r with
      | String ","%char r' => '(l, r'') ← parse_elems fuel' r'; Some (v :: l, r'')
      | String "]"%char r' => Some ([v], r')
      | _ => None
      end
  end
with parse_members (fuel : nat) (s : string) : option (dict pyval * string) :=
  match fuel with
  | O => None
  | S fuel' =>
      match skip_ws s with
      | String c r =>
          if Ascii.eqb c quote then
            '(k, r1) ← read_string r;
            match skip_ws r1 with
            | String ":"%char r2 =>
                '(v, r3) ← parse fuel' r2;
                match skip_ws r3 with
                | String ","%char r4 =>
                    '(d, r5) ← parse_members fuel' r4; Some ((k, v) :: d, r5)
                | String "}"%char r4 => Some ([(k, v)], r4)
                | _ => None
                end
            | _ => None
            end
          else None
      | EmptyString => None
      end
  end.

Definition loads (s : string) : option pyval :=
  '(v, r) ← parse (S (String.length s)) s;
  match skip_ws r with
  | EmptyString => Some v
  | _ => None
  end.

(** The index page with the single entry Michigan. *)
Definition index_page : node :=
  NTag "html" []
    [NTag "ul" [("class", AList ["dropdown-menu"; "SearchBar-keywordSearch"])]
       [NTag "li" []
          [NTag "a" [("href", AStr "/state/mi/index.htm")] [NText " Michigan "]]]].

(** The reply of a search that found nothing. *)
Definition empty_reply : string := dumps (PDict [("searchResults", PList [])]).

(** A site page without address and postal code markup. *)
Definition bare_site_page : node :=
  NTag "html" []
    [NTag "a" [("class", AList ["Hero-title"])] [NText " Isle Royale "];
     NTag "span" [("class", AList ["Hero-designation"])] [NText "National Park"];
     NTag "span" [("itemprop", AStr "telephone")] [NText "(906) 482-0984"]].

Definition site : NationalSite :=
  mkNationalSite "National Park" "Isle Royale" "Houghton, MI" "49931" "(906) 482-0984".

Definition other_site : NationalSite :=
  mkNationalSite "National Lakeshore" "Pictured Rocks" "Munising, MI" "49862" "(906) 387-3700".

(** A search result whose fields have no address key, and one whose address
    is the empty string. *)
Definition result_without_address : pyval :=
  PDict [("fields", PDict [("name", PStr "Cafe");
                           ("group_sic_code_ext", PStr EmptyString);
                           ("city", PStr "Houghton")])].

Definition result_with_empty_address : pyval :=
  PDict [("fields", PDict [("name", PStr "Cafe");
                           ("group_sic_code_ext", PStr EmptyString);
                           ("address", PStr EmptyString);
                           ("city", PStr "Houghton")])].

(** A process that has just started on a machine without cache file. *)
Definition fresh : world := World Absent [PDict []] 0 [].

(** A cache that already holds one page. *)
Definition warm : world := World Absent [PDict [("https://www.nps.gov/isro", PStr "page")]] 0 [].

#[global] Instance externals : Externals := {|
  py_repr := dumps;
  json_dumps := dumps;
  json_loads := loads;
  requests_get := λ _ _ _, Some empty_reply;
  BeautifulSoup := λ markup,
    match markup with
    | PStr _ => Ok index_page
    | _ => Raise TypeError
    end;
  API_KEY := "secret";
  unicode_lower := λ s, s
|}.

End Fixture.

(** * More vocabulary for statements *)

(** [v] is a dictionary. *)
Definition is_dict (v : pyval) : bool :=
  match v with PDict _ => true | _ => false end.

(** The object at [cache] is a dictionary without the key [url]: a fetch of
    [url] is a miss. *)
Definition misses (url : string) (cache : nat) (w : world) : bool :=
  match heap w !! cache with
  | Some (PDict d) => negb (dict_has url d)
  | _ => false
  end.

(** The result rows of a state page. *)
Definition rows (state_soup : node) : list node :=
  find_all (Some "div")
    (Some ("class", "col-md-9 col-sm-9 col-xs-12 table-cell list_left")) state_soup.


(** The page a result row links to. *)
Definition park_url (park : node) : res string :=
  park_path ← attr_of (find (Some "a") None park) "href";
  str_add BASE_URL park_path.

(** One turn of the loop of [get_sites_for_state]. *)
Definition add_site `{Externals} (list_of_sites : list NationalSite) (park : node) :
    M (list NationalSite) :=
  let park_link_tag := find (Some "a") None park in
  park_path ← lift (attr_of park_link_tag "href");
  park_url ← lift (str_add BASE_URL park_path);
  site_instance ← get_site_instance park_url;
  mret ((list_of_sites ++ [site_instance])%list).

(** The dictionary at [g] binds [key] to [v]. *)
Definition holds (g : nat) (key : string) (v : pyval) (w : world) : Prop :=
  ∃ d, heap w !! g = Some (PDict d) ∧ dict_get key d = Some v.

(** From [w] to [w'] the name [CACHE_DICT] stays bound as it was and the
    dictionary at [g] keeps its bindings. *)
Definition grows_from (g : nat) (w w' : world) : Prop :=
  CACHE_DICT w' = CACHE_DICT w ∧
  ∀ key v, holds g key v w → holds g key v w'.

(** A computation under which the dictionary bound to [CACHE_DICT] keeps its
    bindings. *)
Definition growing {A} (c : M A) : Prop :=
  ∀ w, grows_from (CACHE_DICT w) w (c w).2.

(** [site] is the record of the page that the dictionary at [g] holds for the
    link of the row [park]. *)
Definition site_of_row `{Externals} (g : nat) (w : world)
    (park : node) (site : NationalSite) : Prop :=
  ∃ url text soup,
    park_url park = Ok url ∧ holds g url text w ∧
    BeautifulSoup text = Ok soup ∧ extract_site_record soup = Ok site.

(** * More stand-ins for the examples *)
Module Samples.

(** An environment without network. *)
Definition offline : Externals := {|
  py_repr := Fixture.dumps;
  json_dumps := Fixture.dumps;
  json_loads := Fixture.loads;
  requests_get := λ _ _ _, None;
  BeautifulSoup := λ _, Raise TypeError;
  API_KEY := "secret";
  unicode_lower := λ s, s
|}.

Definition state_url : string := "https://www.nps.gov/state/mi/index.htm".

(** A state page with two result rows. *)
Definition state_page : node :=
  NTag "html" []
    [NTag "div"
       [("class", AList ["col-md-9"; "col-sm-9"; "col-xs-12"; "table-cell"; "list_left"])]
       [NTag "h3" [] [NTag "a" [("href", AStr "/isro/index.htm")] [NText "Isle Royale"]]];
     NTag "div"
       [("class", AList ["col-md-9"; "col-sm-9"; "col-xs-12"; "table-cell"; "list_left"])]
       [NTag "h3" [] [NTag "a" [("href", AStr "/piro/index.htm")] [NText "Pictured Rocks"]]]].

(** A site page with every marker. *)
Definition site_page : node :=
  NTag "html" []
    [NTag "a" [("class", AList ["Hero-title"])] [NText " Isle Royale "];
     NTag "span" [("class", AList ["Hero-designation"])] [NText "National Park"];
     NTag "span" [("itemprop", AStr "addressLocality")] [NText "Houghton"];
     NTag "span" [("itemprop", AStr "addressRegion")] [NText "MI"];
     NTag "span" [("itemprop", AStr "postalCode")] [NText "49931 "];
     NTag "span" [("itemprop", AStr "telephone")] [NText "(906) 482-0984"]].

(** A network that serves the state page, an empty reply of the search API
    and, under any other address, the site page. *)
Definition park_service : Externals := {|
  py_repr := Fixture.dumps;
  json_dumps := Fixture.dumps;
  json_loads := Fixture.loads;
  requests_get := λ _ url _,
    Some (if String.eqb url state_url then "state page"
          else if String.eqb url mapquest_url then Fixture.empty_reply
          else "site page");
  BeautifulSoup := λ markup,
    match markup with
    | PStr s => Ok (if String.eqb s "state page" then state_page else site_page)
    | _ => Raise TypeError
    end;
  API_KEY := "secret";
  unicode_lower := λ s, s
|}.

(** A process whose cache file cannot be opened. *)
Definition locked : world := World Locked [PDict []] 0 [].

(** A machine whose cache file holds one page, before the process starts. *)
Definition saved : world :=
  World (Content (Fixture.dumps (PDict [("https://www.nps.gov/isro", PStr "page")])))
    [] 0 [].

(** A machine whose cache file holds a JSON list. *)
Definition list_file : world := World (Content "[]") [] 0 [].

(** A process whose cache file holds the reply for a site that its
    dictionary does not hold. *)
Definition reply_on_disk : world :=
  (@get_nearby_places park_service Fixture.site
     (@module_init park_service Fixture.fresh).2).2.

(** An index page whose second entry has no anchor. *)
Definition broken_index_page : node :=
  NTag "html" []
    [NTag "ul" [("class", AList ["dropdown-menu"; "SearchBar-keywordSearch"])]
       [NTag "li" []
          [NTag "a" [("href", AStr "/state/mi/index.htm")] [NText " Michigan "]];
        NTag "li" [] [NText "Ohio"]]].

(** A reply with two results. *)
Definition two_results : pyval :=
  PDict [("searchResults",
          PList [Fixture.result_with_empty_address;
                 PDict [("fields", PDict [("name", PStr "Inn");
                                          ("group_sic_code_ext", PStr "701101");
                                          ("group_sic_code_name_ext", PStr "Hotels");
                                          ("address", PStr "1 Main St");
                                          ("city", PStr "Houghton")])]])].

End Samples.

(** * Tactics

    [run] unfolds the primitives of the monad [M], [run_res] those of [res]. *)

Ltac run :=
  repeat progress
    (unfold mbind, mret, M_bind, M_ret, lift, deref, store, print, sleep, emit,
       alloc, get_global, set_global, try_except, logged, grown in *;
     cbn beta iota zeta in *).

Ltac run_res :=
  repeat progress
    (unfold mbind, mret, fmap, res_bind, res_ret, res_fmap, res_try, text_of in *;
     cbn beta iota zeta in *).

(** * Facts about dictionaries and sorting *)

(** [strip] removes the no-break space, which takes two bytes in UTF-8, as it
    removes the space. *)
Example strip_no_break_space :
  let nbsp := String "194" (String "160" EmptyString) in
  strip (nbsp ++ " Michigan " ++ nbsp) = "Michigan" ∧
  strip ("Isle" ++ nbsp ++ "Royale") = "Isle" ++ nbsp ++ "Royale".
Proof. split; reflexivity. Qed.

Lemma dict_get_keys {V} (k : string) (d : dict V) :
  is_Some (dict_get k d) ↔ k ∈ dict_keys d.
Proof.
  induction d as [|[k' v] d IH]; simpl.
  - split; [intros [? [=]] | intros Hin; inversion Hin].
  - destruct (String.eqb_spec k k') as [->|Hne].
    + split; [intros _; left | eauto].
    + rewrite IH. split; [by right|].
      intros Hin. inversion Hin; by subst.
Qed.

Lemma dict_get_set_eq {V} (k : string) (v : V) (d : dict V) :
  dict_get k (dict_set k v d) = Some v.
Proof.
  induction d as [|[k' v'] d IH]; simpl.
  - by rewrite String.eqb_refl.
  - destruct (String.eqb_spec k k') as [->|Hne]; simpl.
    + by rewrite String.eqb_refl.
    + by destruct (String.eqb_spec k k').
Qed.

Lemma dict_get_set_ne {V} (k k0 : string) (v : V) (d : dict V) :
  k0 ≠ k → dict_get k0 (dict_set k v d) = dict_get k0 d.
Proof.
  intros Hne. induction d as [|[k' v'] d IH]; simpl.
  - by destruct (String.eqb_spec k0 k).
  - destruct (String.eqb_spec k k') as [->|Hkk']; simpl.
    + by destruct (String.eqb_spec k0 k').
    + by rewrite IH.
Qed.

Lemma existsb_eqb_keys {V} (k : string) (d : dict V) :
  existsb (String.eqb k) (dict_keys d) = bool_decide (is_Some (dict_get k d)).
Proof.
  induction d as [|[k' v] d IH]; [done|].
  cbn [dict_keys map fst existsb dict_get].
  destruct (String.eqb_spec k k') as [->|Hne]; [|exact IH].
  symmetry. apply bool_decide_eq_true. eauto.
Qed.

Lemma dict_keys_Permutation (p1 p2 : dict pyval) :
  NoDup (dict_keys p1) → NoDup (dict_keys p2) →
  (∀ k, dict_get k p1 = dict_get k p2) →
  dict_keys p1 ≡ₚ dict_keys p2.
Proof.
  intros Hnd1 Hnd2 Hsame. apply NoDup_Permutation; [done..|].
  intros k. by rewrite <- !dict_get_keys, Hsame.
Qed.

Lemma merge_sort_Permutation_eq (l1 l2 : list string) :
  l1 ≡ₚ l2 → merge_sort String.le l1 = merge_sort String.le l2.
Proof.
  intros Hperm. apply (Sorted_unique String.le).
  - apply Sorted_merge_sort, _.
  - apply Sorted_merge_sort, _.
  - by rewrite !merge_sort_Permutation.
Qed.

(** * The claims *)

(** C1 (key determinism): two parameter dictionaries that hold the same
    entries, whatever the order in which the entries were inserted, give the
    same key for the same base identifier. *)
Theorem construct_unique_key_order_independent `{Externals}
    (baseurl : string) (params1 params2 : dict pyval) :
  NoDup (dict_keys params1) →
  NoDup (dict_keys params2) →
  (∀ k, dict_get k params1 = dict_get k params2) →
  construct_unique_key baseurl params1 = construct_unique_key baseurl params2.
Proof.
  intros Hnd1 Hnd2 Hsame. unfold construct_unique_key.
  do 3 f_equal. apply merge_sort_Permutation_eq.
  rewrite (map_ext (param_string params2) (param_string params1)).
  - apply Permutation_map, dict_keys_Permutation; done.
  - intros k. unfold param_string. by rewrite Hsame.
Qed.

(** The example of the key determinism property. *)
Lemma construct_unique_key_example :
  NoDup (dict_keys [("x", PStr "1"); ("y", PStr "2")]) ∧
  NoDup (dict_keys [("y", PStr "2"); ("x", PStr "1")]) ∧
  (∀ k, dict_get k [("x", PStr "1"); ("y", PStr "2")]
        = dict_get k [("y", PStr "2"); ("x", PStr "1")]) ∧
  construct_unique_key "B" [("x", PStr "1"); ("y", PStr "2")]
  = construct_unique_key "B" [("y", PStr "2"); ("x", PStr "1")].
Proof.
  assert (Hnd1 : NoDup (dict_keys [("x", PStr "1"); ("y", PStr "2")]))
    by compute_done.
  assert (Hnd2 : NoDup (dict_keys [("y", PStr "2"); ("x", PStr "1")]))
    by compute_done.
  assert (Hsame : ∀ k, dict_get k [("x", PStr "1"); ("y", PStr "2")]
                       = dict_get k [("y", PStr "2"); ("x", PStr "1")]).
  { intros k. simpl.
    destruct (String.eqb_spec k "x") as [->|_]; [reflexivity|].
    destruct (String.eqb_spec k "y"); reflexivity. }
  split; [exact Hnd1|]. split; [exact Hnd2|]. split; [exact Hsame|].
  exact (construct_unique_key_order_independent "B" _ _ Hnd1 Hnd2 Hsame).
Defined.

(** * Running computations *)

Lemma bind_lift_Ok {A B} (a : A) (k : A → M B) (w : world) :
  (lift (Ok a) ≫= k) w = k a w.
Proof. reflexivity. Qed.

Lemma bind_lift_Raise {A B} (e : exn) (k : A → M B) (w : world) :
  (lift (Raise e) ≫= k) w = (Raise e, w).
Proof. reflexivity. Qed.

Lemma bind_bind {A B C} (c : M A) (k : A → M B) (k' : B → M C) (w : world) :
  ((c ≫= k) ≫= k') w = (c ≫= λ a, k a ≫= k') w.
Proof. unfold mbind, M_bind. by destruct (c w) as [[a|e] w1]. Qed.

Lemma count_app (kind : event → bool) (t es : list event) :
  count kind (t ++ es) = (count kind t + count kind es)%nat.
Proof. unfold count. by rewrite filter_app, length_app. Qed.

Lemma insert_last (l : list pyval) (x y : pyval) :
  (<[List.length l := y]> (l ++ [x]) = l ++ [y])%list.
Proof.
  rewrite insert_app_r_alt by lia. by rewrite Nat.sub_diag.
Qed.

Section Fetch.
Context `{Externals}.

(** ** The cache file *)

Lemma open_cache_run (w : world) :
  open_cache w
  = (Ok (length (heap w)),
     World (cache_file w) (heap w ++ [on_disk w]) (CACHE_DICT w)
       (trace w ++ [EvOpenRead])).
Proof.
  unfold open_cache, file_read, on_disk, loads. run.
  destruct (cache_file w) as [| | |s]; try reflexivity.
  simpl. by destruct (json_loads s).
Qed.

Lemma put_run (cache : nat) (key : string) (value : pyval) (w : world) (d : dict pyval) :
  heap w !! cache = Some (PDict d) →
  cache_file w ≠ Locked →
  put cache key value w
  = (Ok (),
     World (Content (json_dumps (PDict (dict_set key value d))))
       (<[cache := PDict (dict_set key value d)]> (heap w)) (CACHE_DICT w)
       (trace w ++ [EvWrite (json_dumps (PDict (dict_set key value d)))])).
Proof.
  intros Hc Hfile. unfold put, save_cache, file_write. run.
  rewrite Hc. simpl.
  rewrite list_lookup_insert_eq by (by eapply lookup_lt_Some).
  simpl. by destruct (cache_file w).
Qed.

Lemma put_inv (cache : nat) (key : string) (value : pyval) (w w1 : world) (u : ()) :
  put cache key value w = (Ok u, w1) →
  ∃ d, heap w !! cache = Some (PDict d) ∧ cache_file w ≠ Locked.
Proof.
  unfold put, save_cache, file_write. run.
  destruct (heap w !! cache) as [[| | | | | |d]|] eqn:Hc; simpl; try discriminate.
  intros Hrun. exists d. split; [done|].
  intros Hfile. rewrite Hfile in Hrun. discriminate.
Qed.

(** ** The URL fetch *)

(** A URL that is in the cache is answered from it: one line is printed, and
    nothing else happens. *)
Lemma url_hit (url : string) (cache : nat) (w : world) (d : dict pyval) (v : pyval) :
  heap w !! cache = Some (PDict d) →
  dict_get url d = Some v →
  make_url_request_using_cache url cache w = (Ok v, logged w [EvPrint "Using cache"]).
Proof.
  intros Hc Hv. unfold make_url_request_using_cache. run.
  rewrite Hc. simpl.
  rewrite existsb_eqb_keys, bool_decide_eq_true_2 by eauto.
  simpl. rewrite Hc. simpl. by rewrite Hv.
Qed.

Lemma url_miss (url : string) (cache : nat) (w : world) (d : dict pyval) :
  heap w !! cache = Some (PDict d) →
  dict_get url d = None →
  make_url_request_using_cache url cache w
  = match requests_get (trace w ++ [EvPrint "Fetching"; EvSleep 1]) url [] with
    | Some body =>
        match cache_file w with
        | Locked =>
            (Raise PermissionError,
             World Locked (<[cache := PDict (dict_set url (PStr body) d)]> (heap w))
               (CACHE_DICT w)
               (trace w ++ [EvPrint "Fetching"; EvSleep 1; EvGet url []]))
        | _ => (Ok (PStr body), after_url_miss url body cache d w)
        end
    | None =>
        (Raise ConnectionError, logged w [EvPrint "Fetching"; EvSleep 1; EvGet url []])
    end.
Proof.
  intros Hc Hv. unfold make_url_request_using_cache. run.
  rewrite Hc. simpl.
  rewrite existsb_eqb_keys, bool_decide_eq_false_2 by (rewrite Hv; by intros [? [=]]).
  unfold http_get. simpl. rewrite <- !app_assoc. simpl.
  destruct (requests_get _ url []) as [body|]; [|done].
  destruct (cache_file w) eqn:Hfile.
  2:{ unfold put, save_cache, file_write. run. simpl. by rewrite Hc. }
  all: rewrite (put_run cache url (PStr body) _ d) by (simpl; congruence).
  all: simpl; rewrite list_lookup_insert_eq by (by eapply lookup_lt_Some).
  all: simpl; rewrite dict_get_set_eq; unfold after_url_miss.
  all: by rewrite <- !app_assoc.
Qed.

(** A fetch that returns found a dictionary at [cache]. *)
Lemma url_fetch_dict (url : string) (cache : nat) (w w1 : world) (v : pyval) :
  make_url_request_using_cache url cache w = (Ok v, w1) →
  ∃ d, heap w !! cache = Some (PDict d).
Proof.
  unfold make_url_request_using_cache. run.
  destruct (heap w !! cache) as [[| | | | | |d]|]; simpl; try discriminate.
  eauto.
Qed.

Lemma cached_spec (key : string) (cache : nat) (w : world) (d : dict pyval) :
  heap w !! cache = Some (PDict d) →
  cached key cache w = bool_decide (is_Some (dict_get key d)).
Proof.
  intros Hc. unfold cached, dict_has. rewrite Hc. apply existsb_eqb_keys.
Qed.

(** Two URL fetches in a row: the second is a hit that returns what the first
    returned, and the network is called once if the first was a miss and not
    at all otherwise. *)
Lemma url_fetch_twice (url : string) (cache : nat) (w w1 : world) (v : pyval) :
  make_url_request_using_cache url cache w = (Ok v, w1) →
  make_url_request_using_cache url cache w1
  = (Ok v, logged w1 [EvPrint "Using cache"]) ∧
  count is_get (trace w1)
  = (count is_get (trace w) + if cached url cache w then 0 else 1)%nat.
Proof.
  intros Hrun. destruct (url_fetch_dict _ _ _ _ _ Hrun) as [d Hc].
  rewrite (cached_spec _ _ _ _ Hc).
  destruct (dict_get url d) as [v0|] eqn:Hv.
  - rewrite (url_hit _ _ _ _ _ Hc Hv) in Hrun. injection Hrun as <- <-.
    split.
    + by apply (url_hit _ _ _ d).
    + simpl. by rewrite count_app.
  - rewrite (url_miss _ _ _ _ Hc Hv) in Hrun.
    destruct (requests_get _ url []) as [body|]; [|discriminate].
    assert (Hw1 : v = PStr body ∧ w1 = after_url_miss url body cache d w)
      by (destruct (cache_file w); naive_solver).
    destruct Hw1 as [-> ->]. split.
    + apply (url_hit _ _ _ (dict_set url (PStr body) d)).
      * simpl. apply list_lookup_insert_eq. by eapply lookup_lt_Some.
      * apply dict_get_set_eq.
    + simpl. by rewrite count_app.
Qed.

(** ** The API fetch *)

Lemma api_hit (site : NationalSite) (w : world) (d : dict pyval) (v : pyval) :
  on_disk w = PDict d →
  dict_get (construct_unique_key mapquest_url (nearby_params site)) d = Some v →
  get_nearby_places site w
  = (Ok v,
     World (cache_file w) (heap w ++ [PDict d]) (CACHE_DICT w)
       (trace w ++ [EvOpenRead; EvPrint "Using Cache"])).
Proof.
  intros Hd Hv. unfold get_nearby_places.
  remember (construct_unique_key mapquest_url (nearby_params site)) as key.
  unfold mbind at 1, M_bind at 1. rewrite open_cache_run, Hd. run.
  simpl. rewrite lookup_app_r, Nat.sub_diag by lia. simpl.
  rewrite existsb_eqb_keys, bool_decide_eq_true_2 by eauto.
  simpl. rewrite lookup_app_r, Nat.sub_diag by lia. simpl.
  by rewrite Hv, <- app_assoc.
Qed.

Lemma api_miss (site : NationalSite) (w : world) (d : dict pyval) :
  let key := construct_unique_key mapquest_url (nearby_params site) in
  on_disk w = PDict d →
  dict_get key d = None →
  get_nearby_places site w
  = match requests_get (trace w ++ [EvOpenRead; EvPrint "Fetching"])
            mapquest_url (nearby_params site) with
    | Some body =>
        match json_loads body with
        | Some reply =>
            match cache_file w with
            | Locked =>
                (Raise PermissionError,
                 World Locked (heap w ++ [PDict (dict_set key reply d)]) (CACHE_DICT w)
                   (trace w ++ [EvOpenRead; EvPrint "Fetching";
                                EvGet mapquest_url (nearby_params site)]))
            | _ => (Ok reply, after_api_miss site reply d w)
            end
        | None =>
            (Raise JSONDecodeError,
             World (cache_file w) (heap w ++ [PDict d]) (CACHE_DICT w)
               (trace w ++ [EvOpenRead; EvPrint "Fetching";
                            EvGet mapquest_url (nearby_params site)]))
        end
    | None =>
        (Raise ConnectionError,
         World (cache_file w) (heap w ++ [PDict d]) (CACHE_DICT w)
           (trace w ++ [EvOpenRead; EvPrint "Fetching";
                        EvGet mapquest_url (nearby_params site)]))
    end.
Proof.
  intros key Hd Hv. unfold get_nearby_places, after_api_miss. fold key.
  remember (nearby_params site) as params. clearbody key.
  unfold mbind at 1, M_bind at 1. rewrite open_cache_run, Hd. run.
  simpl. rewrite lookup_app_r, Nat.sub_diag by lia. simpl.
  rewrite existsb_eqb_keys, bool_decide_eq_false_2 by (rewrite Hv; by intros [? [=]]).
  unfold http_get. simpl. rewrite <- !app_assoc. simpl.
  destruct (requests_get _ mapquest_url _) as [body|]; [|done].
  unfold loads. destruct (json_loads body) as [reply|]; [|done].
  destruct (cache_file w) eqn:Hfile.
  2:{ unfold put, save_cache, file_write. run. simpl.
      rewrite lookup_app_r, Nat.sub_diag by lia. simpl.
      by rewrite insert_last. }
  all: rewrite (put_run _ key reply _ d)
         by (simpl; first [congruence | by rewrite lookup_app_r, Nat.sub_diag by lia]).
  all: simpl; rewrite insert_last.
  all: rewrite lookup_app_r, Nat.sub_diag by lia; simpl.
  all: rewrite dict_get_set_eq.
  all: by rewrite <- !app_assoc.
Qed.

Lemma api_fetch_dict (site : NationalSite) (w w1 : world) (v : pyval) :
  get_nearby_places site w = (Ok v, w1) → ∃ d, on_disk w = PDict d.
Proof.
  unfold get_nearby_places.
  remember (construct_unique_key mapquest_url (nearby_params site)) as key.
  unfold mbind at 1, M_bind at 1. rewrite open_cache_run. run.
  simpl. rewrite lookup_app_r, Nat.sub_diag by lia. simpl.
  destruct (on_disk w); simpl; try discriminate. eauto.
Qed.

(** Two API fetches in a row, when the dictionary the first one held survives
    a dump and a load: the second is a hit that returns what the first
    returned, and the network is called once if the first was a miss and not
    at all otherwise. *)
Lemma api_fetch_twice (site : NationalSite) (w w1 : world) (v : pyval) :
  get_nearby_places site w = (Ok v, w1) →
  ∃ c1, heap w1 !! List.length (heap w) = Some c1 ∧
        (json_loads (json_dumps c1) = Some c1 →
         get_nearby_places site w1
         = (Ok v, logged (grown w1 c1) [EvOpenRead; EvPrint "Using Cache"])) ∧
        count is_get (trace w1)
        = (count is_get (trace w) + if disk_cached site w then 0 else 1)%nat.
Proof.
  intros Hrun. destruct (api_fetch_dict _ _ _ _ Hrun) as [d Hd].
  unfold disk_cached, dict_has. rewrite Hd, existsb_eqb_keys.
  destruct (dict_get (construct_unique_key mapquest_url (nearby_params site)) d)
    as [v0|] eqn:Hv.
  - rewrite (api_hit _ _ _ _ Hd Hv) in Hrun. injection Hrun as <- <-.
    exists (PDict d). split; [|split].
    + simpl. by rewrite lookup_app_r, Nat.sub_diag by lia.
    + intros _. rewrite (api_hit _ _ d v0); [done| |done].
      unfold on_disk in *. by simpl.
    + simpl. by rewrite count_app.
  - rewrite (api_miss _ _ _ Hd Hv) in Hrun.
    destruct (requests_get _ mapquest_url _) as [body|]; [|discriminate].
    destruct (json_loads body) as [reply|]; [|discriminate].
    assert (Hw1 : v = reply ∧ w1 = after_api_miss site reply d w)
      by (destruct (cache_file w); naive_solver).
    destruct Hw1 as [-> ->]. unfold after_api_miss in *.
    eexists. split; [|split].
    + simpl. by rewrite lookup_app_r, Nat.sub_diag by lia.
    + intros Hround.
      rewrite (api_hit _ _
                 (dict_set (construct_unique_key mapquest_url (nearby_params site))
                    reply d) reply);
        [done| |apply dict_get_set_eq].
      unfold on_disk. simpl. by rewrite Hround.
    + simpl. by rewrite count_app.
Qed.

(** What a hit adds to the trace holds no request, no delay and no write. *)
Lemma hit_events_are_quiet (w : world) (kind : event → bool) :
  kind = is_get ∨ kind = is_sleep ∨ kind = is_write →
  count kind (trace (logged w [EvPrint "Using cache"])) = count kind (trace w) ∧
  count kind (trace (logged w [EvOpenRead; EvPrint "Using Cache"])) = count kind (trace w).
Proof.
  intros [->|[->| ->]]; simpl; rewrite !count_app; simpl; split; apply Nat.add_0_r.
Qed.

End Fetch.

(** C2 (cache-hit idempotence), for the URL fetch and for the API fetch.
    A key that is in the cache is answered with the cached value, and all the
    fetch does besides is print one line (and, for the API fetch, reload the
    cache file): no delay, no request, no write. Hence of two fetches in a
    row the second returns what the first returned, and the network is called
    exactly once when the first was a miss. For the API fetch, which keeps
    its dictionary on the disk between calls, this needs the dictionary [c1]
    that the first call held to survive [json.dumps] and [json.loads]. *)
Theorem fetch_hit_is_quiet_and_fetch_is_idempotent `{Externals} :
  (∀ url cache w d v,
     heap w !! cache = Some (PDict d) →
     dict_get url d = Some v →
     make_url_request_using_cache url cache w
     = (Ok v, logged w [EvPrint "Using cache"])) ∧
  (∀ url cache w w1 v,
     make_url_request_using_cache url cache w = (Ok v, w1) →
     make_url_request_using_cache url cache w1
     = (Ok v, logged w1 [EvPrint "Using cache"]) ∧
     count is_get (trace w1)
     = (count is_get (trace w) + if cached url cache w then 0 else 1)%nat) ∧
  (∀ site w d v,
     on_disk w = PDict d →
     dict_get (construct_unique_key mapquest_url (nearby_params site)) d = Some v →
     get_nearby_places site w
     = (Ok v, logged (grown w (PDict d)) [EvOpenRead; EvPrint "Using Cache"])) ∧
  (∀ site w w1 v,
     get_nearby_places site w = (Ok v, w1) →
     ∃ c1, heap w1 !! List.length (heap w) = Some c1 ∧
           (json_loads (json_dumps c1) = Some c1 →
            get_nearby_places site w1
            = (Ok v, logged (grown w1 c1) [EvOpenRead; EvPrint "Using Cache"])) ∧
           count is_get (trace w1)
           = (count is_get (trace w) + if disk_cached site w then 0 else 1)%nat).
Proof.
  split; [exact url_hit|]. split; [exact url_fetch_twice|].
  split; [exact api_hit|]. exact api_fetch_twice.
Qed.

(** C3 (cache round trip): after a [put] that returned, the dictionary binds
    the key to the value, the cache file holds the dump of the whole
    dictionary, and, as long as the dictionary survives [json.dumps] and
    [json.loads], a fresh [open_cache] yields a new dictionary with the same
    bindings. *)
Theorem put_then_open_cache `{Externals}
    (cache : nat) (key : string) (value : pyval) (w w1 : world) :
  put cache key value w = (Ok (), w1) →
  ∃ d, heap w1 !! cache = Some (PDict d) ∧
       dict_get key d = Some value ∧
       cache_file w1 = Content (json_dumps (PDict d)) ∧
       (json_loads (json_dumps (PDict d)) = Some (PDict d) →
        open_cache w1
        = (Ok (List.length (heap w1)), grown (logged w1 [EvOpenRead]) (PDict d))).
Proof.
  intros Hput.
  destruct (put_inv _ _ _ _ _ _ Hput) as (d & Hd & Hfile).
  rewrite (put_run _ _ _ _ _ Hd Hfile) in Hput. injection Hput as <-.
  exists (dict_set key value d). simpl.
  split; [apply list_lookup_insert_eq; by eapply lookup_lt_Some|].
  split; [apply dict_get_set_eq|]. split; [done|].
  intros Hround. rewrite open_cache_run. unfold on_disk. simpl. by rewrite Hround.
Qed.


(** * The extractors *)

(** What [extract_site_record] returns when the required markers are there. *)
Lemma extract_site_record_ok (soup t d p : node) :
  title_tag soup = Some t →
  designation_tag soup = Some d →
  telephone_tag soup = Some p →
  extract_site_record soup
  = Ok (mkNationalSite (strip (get_text d)) (strip (get_text t))
          match locality_tag soup, region_tag soup with
          | Some c, Some s => strip (get_text c) ++ ", " ++ strip (get_text s)
          | _, _ => "No address"
          end
          match postal_tag soup with
          | Some z => strip (get_text z)
          | None => "No zipcode"
          end
          (strip (get_text p))).
Proof.
  unfold title_tag, designation_tag, telephone_tag, locality_tag, region_tag,
    postal_tag, extract_site_record.
  intros -> -> ->. run_res.
  by destruct (find (Some "span") (Some ("itemprop", "addressLocality")) soup),
    (find (Some "span") (Some ("itemprop", "addressRegion")) soup),
    (find (Some "span") (Some ("itemprop", "postalCode")) soup).
Qed.

Lemma extract_site_record_raises (soup : node) :
  title_tag soup = None ∨ telephone_tag soup = None →
  extract_site_record soup = Raise AttributeError.
Proof.
  unfold title_tag, telephone_tag, extract_site_record.
  intros [Hnone|Hnone]; run_res; rewrite Hnone; [done|].
  destruct (find None (Some ("class", "Hero-title")) soup); [|done].
  by destruct (find None (Some ("class", "Hero-designation")) soup).
Qed.

(** C5, as the code has it (the sentinels are capitalised): a site page that
    has its title, designation and telephone markers yields a record; its
    address is [No address] when the locality or the region markup is
    missing, and its zipcode is [No zipcode] when the postal code markup is
    missing. *)
Theorem optional_fields_fall_back (soup : node) :
  is_Some (title_tag soup) →
  is_Some (designation_tag soup) →
  is_Some (telephone_tag soup) →
  ∃ r, extract_site_record soup = Ok r ∧
       (locality_tag soup = None ∨ region_tag soup = None → address r = "No address") ∧
       (postal_tag soup = None → zipcode r = "No zipcode").
Proof.
  intros [t Ht] [d Hd] [p Hp]. eexists. split.
  - by apply extract_site_record_ok.
  - simpl. split.
    + intros [->| ->]; [done|]. by destruct (locality_tag soup).
    + by intros ->.
Qed.

(** * The region index *)

Lemma state_entry_run `{Externals}
    (states_dict : dict string) (state : node) (e : string * string) :
  entry_of state = Some e → state_entry states_dict state = Ok (add_entry states_dict e).
Proof.
  unfold entry_of, state_entry, add_entry.
  destruct (find (Some "a") None state) as [[|nm attrs cs]|]; try discriminate.
  simpl. destruct (dict_get "href" attrs) as [[path|]|]; try discriminate.
  by intros [= <-].
Qed.

Lemma res_fold_state_entry `{Externals} (states_dict : dict string) (lis : list node)
    (entries : list (string * string)) :
  Forall2 (λ li e, entry_of li = Some e) lis entries →
  res_fold state_entry states_dict lis = Ok (fold_left add_entry entries states_dict).
Proof.
  intros Hall. revert states_dict.
  induction Hall as [|li e lis entries He _ IH]; intros states_dict; [done|].
  simpl. rewrite (state_entry_run _ _ _ He). apply IH.
Qed.

(** The binding that the last entry with a given name leaves in the index. *)
Lemma fold_add_entry_last `{Externals}
    (entries : list (string * string)) (d0 : dict string)
    (i : nat) (e : string * string) :
  entries !! i = Some e →
  (∀ j e', (i < j)%nat → entries !! j = Some e' →
           lower (strip e'.1) ≠ lower (strip e.1)) →
  dict_get (lower (strip e.1)) (fold_left add_entry entries d0) = Some (BASE_URL ++ e.2).
Proof.
  revert d0 i. induction entries as [|e0 entries IH]; intros d0 i Hi Hlater; [done|].
  destruct i as [|i]; simpl in *.
  - injection Hi as ->. clear IH.
    assert (Hkeep : ∀ d, dict_get (lower (strip e.1)) d = Some (BASE_URL ++ e.2) →
              dict_get (lower (strip e.1)) (fold_left add_entry entries d)
              = Some (BASE_URL ++ e.2)).
    { induction entries as [|e1 entries IH]; intros d Hd; [done|]. simpl.
      apply IH.
      - intros j e' Hj He'. apply (Hlater (S j) e'); [lia|]. destruct j; [lia|done].
      - unfold add_entry at 1. rewrite dict_get_set_ne; [done|].
        intros Heq. by apply (Hlater 1%nat e1); [lia| |]. }
    apply Hkeep. unfold add_entry. apply dict_get_set_eq.
  - apply (IH _ i); [done|].
    intros j e' Hj He'. apply (Hlater (S j) e'); [lia|done].
Qed.

(** C7 (region index): every entry of the dropdown adds the binding of its
    trimmed, lower-cased display text to its link prefixed with the base URL;
    a name is bound to the link of the last entry that carries it. The text
    is trimmed by [strip] and lower-cased by [lower], whatever characters it
    holds. *)
Theorem extract_region_index_entries `{Externals} (soup dropdown : node)
    (entries : list (string * string)) :
  find None (Some ("class", "dropdown-menu SearchBar-keywordSearch")) soup = Some dropdown →
  Forall2 (λ li e, entry_of li = Some e) (find_all (Some "li") None dropdown) entries →
  extract_region_index soup = Ok (fold_left add_entry entries []) ∧
  ∀ i e, entries !! i = Some e →
    (∀ j e', (i < j)%nat → entries !! j = Some e' →
             lower (strip e'.1) ≠ lower (strip e.1)) →
    dict_get (lower (strip e.1)) (fold_left add_entry entries [])
    = Some (BASE_URL ++ e.2).
Proof.
  intros Hdd Hall. split.
  - unfold extract_region_index. rewrite Hdd. simpl.
    by apply res_fold_state_entry.
  - intros i e. apply fold_add_entry_last.
Qed.

(** C6 (required fields): a site page without title marker, or without
    telephone marker, makes the extraction raise, and [get_site_instance]
    passes the exception on to its caller. *)
Theorem missing_required_field_raises `{Externals}
    (site_url : string) (w w1 : world) (site_text : pyval) (site_soup : node) :
  make_url_request_using_cache site_url (CACHE_DICT w) w = (Ok site_text, w1) →
  BeautifulSoup site_text = Ok site_soup →
  title_tag site_soup = None ∨ telephone_tag site_soup = None →
  extract_site_record site_soup = Raise AttributeError ∧
  get_site_instance site_url w = (Raise AttributeError, w1).
Proof.
  intros Hfetch Hsoup Hnone.
  pose proof (extract_site_record_raises _ Hnone) as Hraise.
  split; [done|].
  unfold get_site_instance. run. by rewrite Hfetch, Hsoup, Hraise.
Qed.

(** * Nearby places *)

Lemma field_run (results r : pyval) (fields : dict pyval) (i : nat) (k : string) :
  py_getindex results i = Ok r →
  py_getitem r "fields" = Ok (PDict fields) →
  field results i k
  = match dict_get k fields with Some x => Ok x | None => Raise KeyError end.
Proof. intros Hr Hf. unfold field. run_res. by rewrite Hr, Hf. Qed.

(** The loop of [formatted_nearby_places] prints one line for each place it
    derives, in order. *)
Lemma print_places_run `{Externals} (results : pyval) (places : list NearbyPlace)
    (k : nat) (rest : list nat) (w : world) :
  (∀ i p, places !! i = Some p → nearby_place results (k + i) = Ok p) →
  M_fold (λ _ i, p ← lift (nearby_place results i); print (place_line p)) ()
    (seq k (List.length places) ++ rest)%list w
  = M_fold (λ _ i, p ← lift (nearby_place results i); print (place_line p)) ()
      rest (logged w (map (λ p, EvPrint (place_line p)) places)).
Proof.
  revert k w. induction places as [|p places IH]; intros k w Hplaces.
  - simpl. unfold logged. rewrite app_nil_r. by destruct w.
  - simpl. rewrite bind_bind.
    rewrite <- (Nat.add_0_r k) at 1. rewrite (Hplaces 0%nat p eq_refl), bind_lift_Ok.
    unfold mbind at 1, M_bind at 1, print at 1, emit at 1. rewrite IH.
    + unfold logged. simpl. by rewrite <- app_assoc.
    + intros i q Hq. replace (S k + i)%nat with (k + S i)%nat by lia.
      by apply Hplaces.
Qed.

(** A reply whose results all yield a place is printed line by line; the
    first result that raises stops the loop after the lines before it, and
    its exception leaves [formatted_nearby_places]. *)
Lemma formatted_nearby_places_run `{Externals} (api_resp results : pyval) (n : nat)
    (places : list NearbyPlace) (w : world) :
  py_getitem api_resp "searchResults" = Ok results →
  py_len results = Ok n →
  (∀ i p, places !! i = Some p → nearby_place results i = Ok p) →
  (List.length places = n →
   formatted_nearby_places api_resp w
   = (Ok (), logged w (map (λ p, EvPrint (place_line p)) places))) ∧
  (∀ e, (List.length places < n)%nat →
        nearby_place results (List.length places) = Raise e →
        formatted_nearby_places api_resp w
        = (Raise e, logged w (map (λ p, EvPrint (place_line p)) places))).
Proof.
  intros Hres Hlen Hplaces. unfold formatted_nearby_places.
  rewrite Hres, bind_lift_Ok, Hlen, bind_lift_Ok. split.
  - intros <-. rewrite <- (app_nil_r (seq 0 _)). by rewrite print_places_run.
  - intros e Hlt Hraise.
    replace n with (List.length places + S (n - S (List.length places)))%nat by lia.
    rewrite seq_app, print_places_run by done. simpl.
    by rewrite Hraise, bind_bind, bind_lift_Raise.
Qed.

(** C8, as the code has it: an entry whose fields hold the keys the loop
    reads yields a place whose category, address and city are the sentinels
    whenever the value that is tested is falsy, and the value itself
    otherwise; an entry whose fields lack one of the keys [name],
    [group_sic_code_ext], [address] or [city] raises [KeyError], and an
    exception raised for an entry leaves [formatted_nearby_places] after the
    lines of the entries before it. *)
Theorem nearby_place_fallbacks `{Externals} :
  (∀ results i name g a c,
     field results i "name" = Ok name →
     field results i "group_sic_code_ext" = Ok g →
     field results i "address" = Ok a →
     field results i "city" = Ok c →
     (truthy g = true → ∃ x, field results i "group_sic_code_name_ext" = Ok x) →
     ∃ p, nearby_place results i = Ok p ∧
          place_name p = name ∧
          (if truthy g
           then field results i "group_sic_code_name_ext" = Ok (place_category p)
           else place_category p = PStr "no category") ∧
          place_address p = (if truthy a then a else PStr "no address") ∧
          place_city p = (if truthy c then c else PStr "no city")) ∧
  (∀ results i r fields k,
     py_getindex results i = Ok r →
     py_getitem r "fields" = Ok (PDict fields) →
     k ∈ ["name"; "group_sic_code_ext"; "address"; "city"] →
     dict_get k fields = None →
     nearby_place results i = Raise KeyError) ∧
  (∀ api_resp results n places w e,
     py_getitem api_resp "searchResults" = Ok results →
     py_len results = Ok n →
     (∀ i p, places !! i = Some p → nearby_place results i = Ok p) →
     (List.length places < n)%nat →
     nearby_place results (List.length places) = Raise e →
     formatted_nearby_places api_resp w
     = (Raise e, logged w (map (λ p, EvPrint (place_line p)) places))).
Proof.
  split; [|split].
  3:{ intros api_resp results n places w e Hres Hlen Hplaces Hlt Hraise.
      by apply (formatted_nearby_places_run api_resp results n places w). }
  - intros results i name g a c Hname Hg Ha Hc Hext. unfold nearby_place.
    rewrite Hname, Hg, Ha, Hc. run_res.
    destruct (truthy g) eqn:Htg.
    + destruct (Hext eq_refl) as [x Hx]. rewrite Hx.
      destruct (truthy a), (truthy c); by eexists.
    + destruct (truthy a), (truthy c); by eexists.
  - intros results i r fields k Hr Hf Hk Hnone. unfold nearby_place.
    rewrite !(field_run _ _ _ _ _ Hr Hf). run_res.
    repeat (apply elem_of_cons in Hk as [->|Hk]; [rewrite ?Hnone|]);
      [..|by apply elem_of_nil in Hk].
    all: repeat first
      [ done
      | match goal with
        | |- context [match dict_get ?key ?f with _ => _ end] =>
            destruct (dict_get key f)
        | |- context [if truthy ?v then _ else _] => destruct (truthy v)
        end ].
Qed.

(** * The selection prompt *)

Lemma list_index_last {A} (l : list A) (x : A) : list_index (l ++ [x]) (-1) = Ok x.
Proof.
  unfold list_index. rewrite length_app. simpl.
  assert (Hlen : -1 + Z.of_nat (List.length l + 1) = Z.of_nat (List.length l)) by lia.
  rewrite Hlen.
  destruct (Z.ltb_spec (Z.of_nat (List.length l)) 0); [lia|].
  rewrite Nat2Z.id, lookup_app_r, Nat.sub_diag by lia. done.
Qed.

Lemma isnumeric_not_word (u : string) :
  isnumeric u = true → String.eqb u "exit" = false ∧ String.eqb u "back" = false.
Proof.
  intros Hnum. split.
  - destruct (String.eqb_spec u "exit") as [->|]; [discriminate|done].
  - destruct (String.eqb_spec u "back") as [->|]; [discriminate|done].
Qed.

(** A number above the number of sites listed is reported, and the prompt
    comes again; no site is looked up. *)
Lemma choose_site_above_range `{Externals}
    (user_input : string) (state_sites : list NationalSite) (w : world) :
  isnumeric user_input = true →
  Z.of_nat (List.length state_sites) < int user_input →
  choose_site user_input state_sites w
  = (Ok Continue, logged w [EvPrint "Index out of range. Please enter a new number"]).
Proof.
  intros Hnum Habove. unfold choose_site.
  destruct (isnumeric_not_word _ Hnum) as [-> ->]. rewrite Hnum.
  destruct (Z.leb_spec (int user_input) (Z.of_nat (List.length state_sites))); [lia|].
  reflexivity.
Qed.

(** With no site listed, the input [0] runs into the handler of the prompt. *)
Lemma choose_site_zero_no_sites `{Externals} (w : world) :
  choose_site "0" [] w = (Ok Continue, logged w [EvPrint "Error - please try again."]).
Proof. reflexivity. Qed.

(** C9 fails for the input [0]: with at least one site listed, the prompt
    takes the last site of the list and looks up the places near it. *)
Theorem choose_site_zero_selects_last `{Externals}
    (state_sites : list NationalSite) (last_site : NationalSite) (w : world) :
  choose_site "0" (state_sites ++ [last_site]) w
  = try_except (show_nearby last_site)
      (print "Error - please try again.";; mret Continue) w.
Proof.
  unfold choose_site.
  change (String.eqb "0" "exit") with false.
  change (String.eqb "0" "back") with false.
  change (isnumeric "0") with true.
  change (int "0") with 0.
  destruct (Z.leb_spec 0 (Z.of_nat (List.length (state_sites ++ [last_site])))); [|lia].
  cbn beta iota. change (0 - 1) with (-1).
  unfold try_except, mbind at 1, M_bind at 1, lift.
  by rewrite list_index_last.
Qed.

(** * Which dictionary a fetch works on *)

Lemma same_but_refl (g : nat) (w : world) : same_but g w w.
Proof. by unfold same_but. Qed.

Lemma same_but_trans (g : nat) (w1 w2 w3 : world) :
  same_but g w1 w2 → same_but g w2 w3 → same_but g w1 w3.
Proof.
  intros (Hr1 & Hg1 & Hl1 & Hh1) (Hr2 & Hg2 & Hl2 & Hh2).
  repeat split; try congruence.
  intros l Hl. rewrite Hh2, Hh1; done.
Qed.

Lemma works_on_bind {A B} (g : nat) (c : M A) (k : A → M B) :
  works_on g c → (∀ a, works_on g (k a)) → works_on g (c ≫= k).
Proof.
  intros Hc Hk w. specialize (Hc w). unfold mbind, M_bind.
  destruct (c w) as [[a|e] w1]; simpl in *; [|done].
  eapply same_but_trans; [exact Hc | apply Hk].
Qed.

Lemma works_on_lift {A} (g : nat) (r : res A) : works_on g (lift r).
Proof. intros w. apply same_but_refl. Qed.

Lemma works_on_ret {A} (g : nat) (a : A) : works_on g (mret a).
Proof. intros w. apply same_but_refl. Qed.

Lemma works_on_deref (g l : nat) : works_on g (deref l).
Proof. intros w. apply same_but_refl. Qed.

Lemma works_on_emit (g : nat) (e : event) :
  is_open_read e = false → works_on g (emit e).
Proof.
  intros He w. unfold same_but, emit. simpl. rewrite count_app.
  unfold count at 2. rewrite filter_cons, filter_nil.
  case_decide; [congruence|]. simpl. repeat split. lia.
Qed.

Lemma works_on_store (g : nat) (v : pyval) : works_on g (store g v).
Proof.
  intros w. unfold same_but, store. simpl. rewrite length_insert.
  repeat split. intros l Hl. by rewrite list_lookup_insert_ne.
Qed.

Section Confinement.
Context `{Externals}.

Lemma works_on_http_get (g : nat) (url : string) (params : dict pyval) :
  works_on g (http_get url params).
Proof.
  intros w. unfold same_but, http_get.
  destruct (requests_get (trace w) url params); simpl; rewrite count_app; done.
Qed.

Lemma works_on_save_cache (g cache : nat) : works_on g (save_cache cache).
Proof.
  intros w. unfold same_but, save_cache, file_write. run.
  destruct (cache_file w); simpl; rewrite ?count_app; done.
Qed.

Lemma works_on_put (g : nat) (key : string) (value : pyval) :
  works_on g (put g key value).
Proof.
  unfold put.
  repeat first
    [ apply works_on_deref | apply works_on_lift | apply works_on_store
    | apply works_on_save_cache
    | apply works_on_bind; [|intros ?] ].
Qed.

(** The URL fetch works on the dictionary it is handed, and on nothing else. *)
Lemma works_on_url_fetch (url : string) (cache : nat) :
  works_on cache (make_url_request_using_cache url cache).
Proof.
  unfold make_url_request_using_cache, print, sleep.
  repeat first
    [ apply works_on_deref | apply works_on_lift | apply works_on_put
    | apply works_on_http_get | by apply works_on_emit
    | match goal with |- works_on _ (if ?b then _ else _) => destruct b end
    | apply works_on_bind; [|intros ?] ].
Qed.

Lemma uses_global_cache_bind {A B} (c : M A) (k : A → M B) :
  uses_global_cache c → (∀ a, uses_global_cache (k a)) → uses_global_cache (c ≫= k).
Proof.
  intros Hc Hk w. specialize (Hc w). unfold mbind, M_bind.
  destruct (c w) as [[a|e] w1]; simpl in *; [|done].
  eapply same_but_trans; [exact Hc|].
  specialize (Hk a w1).
  by replace (CACHE_DICT w1) with (CACHE_DICT w) in Hk by (symmetry; apply Hc).
Qed.

Lemma uses_global_cache_lift {A} (r : res A) : uses_global_cache (lift r).
Proof. intros w. apply same_but_refl. Qed.

Lemma uses_global_cache_ret {A} (a : A) : uses_global_cache (mret a).
Proof. intros w. apply same_but_refl. Qed.

Lemma uses_global_cache_get_global {A} (k : nat → M A) :
  (∀ g, works_on g (k g)) → uses_global_cache (get_global ≫= k).
Proof. intros Hk w. apply Hk. Qed.

Lemma uses_global_cache_fold {A B} (body : B → A → M B) (acc : B) (xs : list A) :
  (∀ acc x, uses_global_cache (body acc x)) → uses_global_cache (M_fold body acc xs).
Proof.
  intros Hbody. revert acc. induction xs as [|x xs IH]; intros acc; simpl.
  - apply uses_global_cache_ret.
  - apply uses_global_cache_bind; [apply Hbody | intros acc'; apply IH].
Qed.

Lemma uses_global_cache_url_fetch {A} (url : string) (k : pyval → M A) :
  (∀ text, uses_global_cache (k text)) →
  uses_global_cache (cache ← get_global; text ← make_url_request_using_cache url cache; k text).
Proof.
  intros Hk w. unfold mbind at 1, M_bind at 1, get_global.
  pose proof (works_on_url_fetch url (CACHE_DICT w) w) as Hfetch.
  unfold mbind, M_bind.
  destruct (make_url_request_using_cache url (CACHE_DICT w) w) as [[text|e] w1];
    simpl in *; [|done].
  eapply same_but_trans; [exact Hfetch|].
  specialize (Hk text w1).
  by replace (CACHE_DICT w1) with (CACHE_DICT w) in Hk by (symmetry; apply Hfetch).
Qed.

Lemma uses_global_cache_get_site_instance (site_url : string) :
  uses_global_cache (get_site_instance site_url).
Proof.
  unfold get_site_instance. apply uses_global_cache_url_fetch. intros text.
  apply uses_global_cache_bind; [apply uses_global_cache_lift|].
  intros soup. apply uses_global_cache_lift.
Qed.

Lemma uses_global_cache_build_state_url_dict :
  uses_global_cache build_state_url_dict.
Proof.
  unfold build_state_url_dict. apply uses_global_cache_url_fetch. intros text.
  apply uses_global_cache_bind; [apply uses_global_cache_lift|].
  intros soup. apply uses_global_cache_lift.
Qed.

Lemma uses_global_cache_get_sites_for_state (state_url : string) :
  uses_global_cache (get_sites_for_state state_url).
Proof.
  unfold get_sites_for_state. apply uses_global_cache_url_fetch. intros text.
  apply uses_global_cache_bind; [apply uses_global_cache_lift|].
  intros soup. apply uses_global_cache_fold. intros acc park.
  repeat first
    [ apply uses_global_cache_lift | apply uses_global_cache_get_site_instance
    | apply uses_global_cache_ret
    | apply uses_global_cache_bind; [|intros ?] ].
Qed.

(** The start of the process reads the cache file once. *)
Lemma module_init_loads_once (w : world) :
  count is_open_read (trace (module_init w).2)
  = (count is_open_read (trace w) + 1)%nat.
Proof.
  unfold module_init. run. unfold mbind, M_bind. simpl.
  rewrite open_cache_run. simpl. by rewrite count_app.
Qed.

(** Every API fetch reads the cache file once more. *)
Lemma get_nearby_places_reloads (site : NationalSite) (w : world) :
  count is_open_read (trace (get_nearby_places site w).2)
  = (count is_open_read (trace w) + 1)%nat.
Proof.
  unfold get_nearby_places.
  remember (construct_unique_key mapquest_url (nearby_params site)) as key.
  unfold mbind at 1, M_bind at 1. rewrite open_cache_run.
  match goal with |- context [(?k ?w0).2] =>
    assert (Hrest : works_on (List.length (heap w)) k) end.
  { unfold print.
    repeat first
      [ apply works_on_deref | apply works_on_lift | apply works_on_put
      | apply works_on_http_get | by apply works_on_emit
      | match goal with |- works_on _ (if ?b then _ else _) => destruct b end
      | apply works_on_bind; [|intros ?] ]. }
  match goal with |- context [(?k ?w0).2] =>
    destruct (Hrest w0) as [-> _] end.
  simpl. by rewrite count_app.
Qed.

(** The start of the process binds [CACHE_DICT] to a new dictionary that
    holds what the cache file holds. *)
Lemma module_init_run (w : world) :
  module_init w
  = (Ok (),
     World (cache_file w) (heap w ++ [PDict []; on_disk w])
       (S (List.length (heap w))) (trace w ++ [EvOpenRead])).
Proof.
  unfold module_init. unfold mbind at 1 2, M_bind at 1 2, alloc, set_global.
  cbn beta iota zeta. unfold mbind, M_bind. rewrite open_cache_run. simpl.
  unfold set_global, on_disk. simpl. rewrite length_app, <- app_assoc. simpl.
  by rewrite Nat.add_1_r.
Qed.

(** A routine that begins with a fetch through [CACHE_DICT]. *)
Lemma fetches_through_intro {A} (url : string) (k : pyval → M A) :
  fetches_through_CACHE_DICT url k
    (cache ← get_global; text ← make_url_request_using_cache url cache; k text).
Proof.
  intros w d Hd. split.
  - intros page Hpage. unfold mbind, M_bind, get_global.
    by rewrite (url_hit _ _ _ _ _ Hd Hpage).
  - intros body Hnone Hget Hfile. unfold mbind, M_bind, get_global.
    rewrite (url_miss _ _ _ _ Hd Hnone), Hget.
    by destruct (cache_file w).
Qed.

(** The API fetch leaves the name [CACHE_DICT] and every dictionary that
    exists alone: it works on a dictionary of its own, newly allocated. *)
Lemma get_nearby_places_own_dictionary (site : NationalSite) (w : world) :
  CACHE_DICT (get_nearby_places site w).2 = CACHE_DICT w ∧
  List.length (heap (get_nearby_places site w).2) = S (List.length (heap w)) ∧
  ∀ l, (l < List.length (heap w))%nat →
       heap (get_nearby_places site w).2 !! l = heap w !! l.
Proof.
  destruct (get_nearby_places site w) as [r w'] eqn:Hrun.
  unfold get_nearby_places in Hrun.
  remember (construct_unique_key mapquest_url (nearby_params site)) as key.
  unfold mbind at 1, M_bind at 1 in Hrun. rewrite open_cache_run in Hrun.
  match type of Hrun with ?k ?w0 = _ =>
    assert (Hrest : works_on (List.length (heap w)) k);
    [|pose proof (Hrest w0) as (_ & Hglobal & Hlength & Hother)] end.
  { unfold print.
    repeat first
      [ apply works_on_deref | apply works_on_lift | apply works_on_put
      | apply works_on_http_get | by apply works_on_emit
      | match goal with |- works_on _ (if ?b then _ else _) => destruct b end
      | apply works_on_bind; [|intros ?] ]. }
  rewrite Hrun in Hglobal, Hlength, Hother. simpl in *.
  split; [done|]. split; [rewrite Hlength, length_app; simpl; lia|].
  intros l Hl. rewrite Hother by lia. by rewrite lookup_app_l.
Qed.

End Confinement.

(** C10, as the code has it. The start of the process reads the cache file
    once and binds [CACHE_DICT] to a dictionary that holds what the file
    holds. Each scraping routine begins with a fetch through the dictionary
    bound to [CACHE_DICT]: a page this dictionary holds is taken from it, a
    page it lacks is requested and stored into this very dictionary; and all
    a scraping routine does leaves [CACHE_DICT] bound as it was, reads the
    cache file not once and touches no other dictionary (the loop of
    [get_sites_for_state] is a sequence of calls of [get_site_instance]).
    Every call of [get_nearby_places], however, reads the cache file again,
    into a dictionary of its own: [CACHE_DICT] and the dictionaries that exist
    are left alone, and the answer is the one the file holds. *)
Theorem cache_dict_loaded_once_but_reloaded_by_api_fetch `{Externals} :
  (∀ w, ∃ w', module_init w = (Ok (), w') ∧
              heap w' !! CACHE_DICT w' = Some (on_disk w) ∧
              cache_file w' = cache_file w ∧
              trace w' = (trace w ++ [EvOpenRead])%list ∧
              count is_open_read (trace w') = (count is_open_read (trace w) + 1)%nat) ∧
  (∀ url cache, works_on cache (make_url_request_using_cache url cache)) ∧
  (fetches_through_CACHE_DICT (BASE_URL ++ STATES_INDEX_PATH)
     (λ index_text, soup ← lift (BeautifulSoup index_text);
                    lift (extract_region_index soup))
     build_state_url_dict ∧
   uses_global_cache build_state_url_dict) ∧
  (∀ state_url,
     fetches_through_CACHE_DICT state_url
       (λ state_text, state_soup ← lift (BeautifulSoup state_text);
                      M_fold add_site [] (rows state_soup))
       (get_sites_for_state state_url) ∧
     uses_global_cache (get_sites_for_state state_url)) ∧
  (∀ site_url,
     fetches_through_CACHE_DICT site_url
       (λ site_text, site_soup ← lift (BeautifulSoup site_text);
                     lift (extract_site_record site_soup))
       (get_site_instance site_url) ∧
     uses_global_cache (get_site_instance site_url)) ∧
  (∀ site w,
     count is_open_read (trace (get_nearby_places site w).2)
     = (count is_open_read (trace w) + 1)%nat ∧
     CACHE_DICT (get_nearby_places site w).2 = CACHE_DICT w ∧
     List.length (heap (get_nearby_places site w).2) = S (List.length (heap w)) ∧
     ∀ l, (l < List.length (heap w))%nat →
          heap (get_nearby_places site w).2 !! l = heap w !! l) ∧
  (∀ site w d v,
     on_disk w = PDict d →
     dict_get (construct_unique_key mapquest_url (nearby_params site)) d = Some v →
     get_nearby_places site w
     = (Ok v, logged (grown w (PDict d)) [EvOpenRead; EvPrint "Using Cache"])).
Proof.
  split.
  { intros w. eexists. split; [apply module_init_run|]. simpl.
    split; [|split; [done|split; [done|]]].
    - rewrite lookup_app_r by lia. by rewrite Nat.sub_succ_l, Nat.sub_diag by lia.
    - rewrite count_app. reflexivity. }
  split; [exact works_on_url_fetch|].
  split.
  { split; [|exact uses_global_cache_build_state_url_dict].
    exact (fetches_through_intro _ _). }
  split.
  { intros state_url.
    split; [|exact (uses_global_cache_get_sites_for_state state_url)].
    exact (fetches_through_intro _ _). }
  split.
  { intros site_url.
    split; [|exact (uses_global_cache_get_site_instance site_url)].
    exact (fetches_through_intro _ _). }
  split.
  { intros site w. split; [apply get_nearby_places_reloads|].
    apply get_nearby_places_own_dictionary. }
  exact api_hit.
Qed.

(** * Examples *)

(** Two fetches in a row on a machine without cache file, for a URL and for
    a site: one request each, and the second fetch returns what the first
    returned. *)
Lemma fetch_twice_example :
  let url := "https://www.nps.gov/index.htm" in
  let u1 := (make_url_request_using_cache url 0 Fixture.fresh).2 in
  let w1 := (get_nearby_places Fixture.site Fixture.fresh).2 in
  let v := PDict [("searchResults", PList [])] in
  let c1 := PDict [(construct_unique_key mapquest_url (nearby_params Fixture.site), v)] in
  (make_url_request_using_cache url 0 Fixture.fresh = (Ok (PStr Fixture.empty_reply), u1) ∧
   make_url_request_using_cache url 0 u1
   = (Ok (PStr Fixture.empty_reply), logged u1 [EvPrint "Using cache"]) ∧
   count is_get (trace u1) = 1%nat) ∧
  (get_nearby_places Fixture.site Fixture.fresh = (Ok v, w1) ∧
   heap w1 !! List.length (heap Fixture.fresh) = Some c1 ∧
   json_loads (json_dumps c1) = Some c1 ∧
   get_nearby_places Fixture.site w1
   = (Ok v, logged (grown w1 c1) [EvOpenRead; EvPrint "Using Cache"]) ∧
   count is_get (trace w1) = 1%nat).
Proof.
  intros url u1 w1 v c1.
  assert (Hu : make_url_request_using_cache url 0 Fixture.fresh
               = (Ok (PStr Fixture.empty_reply), u1)) by (vm_compute; reflexivity).
  assert (Hw : get_nearby_places Fixture.site Fixture.fresh = (Ok v, w1))
    by (vm_compute; reflexivity).
  assert (Hc1 : heap w1 !! List.length (heap Fixture.fresh) = Some c1)
    by (vm_compute; reflexivity).
  assert (Hround : json_loads (json_dumps c1) = Some c1) by (vm_compute; reflexivity).
  destruct (@fetch_hit_is_quiet_and_fetch_is_idempotent Fixture.externals)
    as (_ & Hurl & _ & Hapi).
  destruct (Hurl url 0%nat Fixture.fresh u1 _ Hu) as [Hu2 Hun].
  destruct (Hapi Fixture.site Fixture.fresh w1 v Hw) as (c1' & Hc1' & Hw2 & Hwn).
  assert (Hsame : c1' = c1)
    by (apply (inj Some); rewrite <- Hc1'; exact Hc1).
  subst c1'. specialize (Hw2 Hround).
  split.
  - split; [exact Hu|]. split; [exact Hu2|]. rewrite Hun. vm_compute. reflexivity.
  - split; [exact Hw|]. split; [exact Hc1|]. split; [exact Hround|].
    split; [exact Hw2|]. rewrite Hwn. vm_compute. reflexivity.
Defined.

(** A page is put in the cache of a fresh process and found again by a load. *)
Lemma put_then_open_cache_example :
  let url := "https://www.nps.gov/isro" in
  let d := [(url, PStr "page")] in
  let w1 := (put 0 url (PStr "page") Fixture.fresh).2 in
  put 0 url (PStr "page") Fixture.fresh = (Ok (), w1) ∧
  json_loads (json_dumps (PDict d)) = Some (PDict d) ∧
  heap w1 !! 0%nat = Some (PDict d) ∧
  dict_get url d = Some (PStr "page") ∧
  cache_file w1 = Content (json_dumps (PDict d)) ∧
  open_cache w1 = (Ok (List.length (heap w1)), grown (logged w1 [EvOpenRead]) (PDict d)).
Proof.
  intros url d w1.
  assert (Hput : put 0 url (PStr "page") Fixture.fresh = (Ok (), w1))
    by (vm_compute; reflexivity).
  assert (Hround : json_loads (json_dumps (PDict d)) = Some (PDict d))
    by (vm_compute; reflexivity).
  destruct (put_then_open_cache 0 url (PStr "page") Fixture.fresh w1 Hput)
    as (d' & Hd' & Hget & Hfile & Hopen).
  assert (Hsame : d' = d) by (vm_compute in Hd'; injection Hd' as <-; reflexivity).
  subst d'.
  split; [exact Hput|]. split; [exact Hround|]. split; [exact Hd'|].
  split; [exact Hget|]. split; [exact Hfile|]. exact (Hopen Hround).
Defined.

(** C5 as stated fails: a page without address and postal code markup yields
    the capitalised sentinels, not the lower-case ones; and a page that lacks
    the title marker as well yields no record at all. *)
Lemma sentinels_are_capitalised :
  (locality_tag Fixture.bare_site_page = None ∧
   postal_tag Fixture.bare_site_page = None ∧
   ∃ r, extract_site_record Fixture.bare_site_page = Ok r ∧
        address r = "No address" ∧ zipcode r = "No zipcode" ∧
        address r ≠ "no address" ∧ zipcode r ≠ "no zipcode") ∧
  (postal_tag Fixture.index_page = None ∧
   extract_site_record Fixture.index_page = Raise AttributeError).
Proof.
  split.
  - split; [reflexivity|]. split; [reflexivity|].
    eexists. split; [vm_compute; reflexivity|].
    split; [reflexivity|]. split; [reflexivity|]. split; discriminate.
  - split; reflexivity.
Qed.

Lemma optional_fields_fall_back_example :
  is_Some (title_tag Fixture.bare_site_page) ∧
  is_Some (designation_tag Fixture.bare_site_page) ∧
  is_Some (telephone_tag Fixture.bare_site_page) ∧
  ∃ r, extract_site_record Fixture.bare_site_page = Ok r ∧
       (locality_tag Fixture.bare_site_page = None ∨
        region_tag Fixture.bare_site_page = None → address r = "No address") ∧
       (postal_tag Fixture.bare_site_page = None → zipcode r = "No zipcode").
Proof.
  assert (Ht : is_Some (title_tag Fixture.bare_site_page)) by (vm_compute; eauto).
  assert (Hd : is_Some (designation_tag Fixture.bare_site_page)) by (vm_compute; eauto).
  assert (Hp : is_Some (telephone_tag Fixture.bare_site_page)) by (vm_compute; eauto).
  split; [exact Ht|]. split; [exact Hd|]. split; [exact Hp|].
  exact (optional_fields_fall_back Fixture.bare_site_page Ht Hd Hp).
Defined.

(** A cached page without title marker. *)
Lemma missing_required_field_example :
  let url := "https://www.nps.gov/isro" in
  let w1 := logged Fixture.warm [EvPrint "Using cache"] in
  make_url_request_using_cache url (CACHE_DICT Fixture.warm) Fixture.warm
  = (Ok (PStr "page"), w1) ∧
  BeautifulSoup (PStr "page") = Ok Fixture.index_page ∧
  (title_tag Fixture.index_page = None ∨ telephone_tag Fixture.index_page = None) ∧
  extract_site_record Fixture.index_page = Raise AttributeError ∧
  get_site_instance url Fixture.warm = (Raise AttributeError, w1).
Proof.
  intros url w1.
  assert (Hfetch : make_url_request_using_cache url (CACHE_DICT Fixture.warm) Fixture.warm
                   = (Ok (PStr "page"), w1)) by (vm_compute; reflexivity).
  assert (Hsoup : BeautifulSoup (PStr "page") = Ok Fixture.index_page) by reflexivity.
  assert (Hnone : title_tag Fixture.index_page = None ∨
                  telephone_tag Fixture.index_page = None) by (left; reflexivity).
  split; [exact Hfetch|]. split; [exact Hsoup|]. split; [exact Hnone|].
  exact (missing_required_field_raises url Fixture.warm w1 _ _ Hfetch Hsoup Hnone).
Defined.

(** The index page with the single entry Michigan. *)
Lemma extract_region_index_michigan :
  let dropdown :=
    NTag "ul" [("class", AList ["dropdown-menu"; "SearchBar-keywordSearch"])]
      [NTag "li" []
         [NTag "a" [("href", AStr "/state/mi/index.htm")] [NText " Michigan "]]] in
  let entries := [(" Michigan ", "/state/mi/index.htm")] in
  find None (Some ("class", "dropdown-menu SearchBar-keywordSearch")) Fixture.index_page
  = Some dropdown ∧
  Forall2 (λ li e, entry_of li = Some e) (find_all (Some "li") None dropdown) entries ∧
  fold_left add_entry entries [] = [("michigan", "https://www.nps.gov/state/mi/index.htm")] ∧
  extract_region_index Fixture.index_page = Ok (fold_left add_entry entries []) ∧
  ∀ i e, entries !! i = Some e →
    (∀ j e', (i < j)%nat → entries !! j = Some e' →
             lower (strip e'.1) ≠ lower (strip e.1)) →
    dict_get (lower (strip e.1)) (fold_left add_entry entries [])
    = Some (BASE_URL ++ e.2).
Proof.
  intros dropdown entries.
  assert (Hdd : find None (Some ("class", "dropdown-menu SearchBar-keywordSearch"))
                  Fixture.index_page = Some dropdown) by (vm_compute; reflexivity).
  assert (Hall : Forall2 (λ li e, entry_of li = Some e)
                   (find_all (Some "li") None dropdown) entries).
  { vm_compute find_all. repeat constructor. }
  split; [exact Hdd|]. split; [exact Hall|]. split; [vm_compute; reflexivity|].
  exact (extract_region_index_entries Fixture.index_page dropdown entries Hdd Hall).
Defined.

(** C8 as stated fails: a result without address key raises, where a result
    with an empty address yields the sentinel. *)
Lemma absent_key_is_not_falsy_value :
  nearby_place (PList [Fixture.result_without_address]) 0 = Raise KeyError ∧
  nearby_place (PList [Fixture.result_with_empty_address]) 0
  = Ok (mkNearbyPlace (PStr "Cafe") (PStr "no category") (PStr "no address")
          (PStr "Houghton")).
Proof. split; vm_compute; reflexivity. Qed.

Lemma nearby_place_fallbacks_example :
  let results := PList [Fixture.result_with_empty_address] in
  field results 0 "name" = Ok (PStr "Cafe") ∧
  field results 0 "group_sic_code_ext" = Ok (PStr EmptyString) ∧
  field results 0 "address" = Ok (PStr EmptyString) ∧
  field results 0 "city" = Ok (PStr "Houghton") ∧
  ∃ p, nearby_place results 0 = Ok p ∧
       place_name p = PStr "Cafe" ∧
       place_category p = PStr "no category" ∧
       place_address p = PStr "no address" ∧
       place_city p = PStr "Houghton".
Proof.
  intros results.
  assert (Hname : field results 0 "name" = Ok (PStr "Cafe")) by reflexivity.
  assert (Hg : field results 0 "group_sic_code_ext" = Ok (PStr EmptyString))
    by reflexivity.
  assert (Ha : field results 0 "address" = Ok (PStr EmptyString)) by reflexivity.
  assert (Hc : field results 0 "city" = Ok (PStr "Houghton")) by reflexivity.
  assert (Hext : truthy (PStr EmptyString) = true →
                 ∃ x, field results 0 "group_sic_code_name_ext" = Ok x)
    by (intros Hfalse; discriminate Hfalse).
  split; [exact Hname|]. split; [exact Hg|]. split; [exact Ha|]. split; [exact Hc|].
  exact (proj1 (@nearby_place_fallbacks Fixture.externals)
           results 0%nat _ _ _ _ Hname Hg Ha Hc Hext).
Defined.

(** The input [0] with two sites listed: the places near the second site
    are requested. *)
Example choose_site_zero_example :
  let w := (choose_site "0" [Fixture.site; Fixture.other_site] Fixture.fresh).2 in
  EvGet mapquest_url (nearby_params Fixture.other_site) ∈ trace w ∧
  EvPrint "Places near Pictured Rocks" ∈ trace w ∧
  EvPrint "Index out of range. Please enter a new number" ∉ trace w.
Proof.
  vm_compute trace. split; [|split].
  - do 2 right. left.
  - do 5 right. left.
  - intros Hin. repeat (apply elem_of_cons in Hin as [Hin|Hin]; [discriminate|]).
    by apply elem_of_nil in Hin.
Qed.

(** C10 as stated fails. After the start of the process and one lookup of
    nearby places, the cache file has been read twice; the reply is in the
    file, and the dictionary bound to [CACHE_DICT] is still empty. The next
    page that is fetched flushes that dictionary over the file, and the reply
    is gone. *)
(** A process that starts beside a cache file holding one page: the page is
    in the dictionary bound to [CACHE_DICT] after one read of the file, and
    [get_site_instance] takes it from there. *)
Lemma cache_dict_example :
  let url := "https://www.nps.gov/isro" in
  let w0 := (@module_init Samples.park_service Samples.saved).2 in
  heap w0 !! CACHE_DICT w0 = Some (PDict [(url, PStr "page")]) ∧
  trace w0 = [EvOpenRead] ∧
  @get_site_instance Samples.park_service url w0
  = (Ok (mkNationalSite "National Park" "Isle Royale" "Houghton, MI" "49931"
           "(906) 482-0984"),
     logged w0 [EvPrint "Using cache"]).
Proof.
  intros url w0.
  destruct (@cache_dict_loaded_once_but_reloaded_by_api_fetch Samples.park_service)
    as (Hstart & _ & _ & _ & Hsite & _).
  destruct (Hstart Samples.saved) as (w' & Hrun & Hheap & _ & Htrace & _).
  assert (Hw0 : w0 = w') by (unfold w0; by rewrite Hrun).
  assert (Hdisk : @on_disk Samples.park_service Samples.saved
                  = PDict [(url, PStr "page")]) by (vm_compute; reflexivity).
  rewrite Hdisk in Hheap. rewrite <- Hw0 in Hheap, Htrace.
  split; [exact Hheap|]. split; [exact Htrace|].
  destruct (proj1 (Hsite url) w0 _ Hheap) as [Hhit _].
  rewrite (Hhit (PStr "page") eq_refl). vm_compute. reflexivity.
Defined.

Lemma api_fetch_reloads_and_leaves_cache_dict :
  let key := construct_unique_key mapquest_url (nearby_params Fixture.site) in
  let w1 := (module_init Fixture.fresh).2 in
  let w2 := (get_nearby_places Fixture.site w1).2 in
  let w3 := (build_state_url_dict w2).2 in
  count is_open_read (trace w1) = 1%nat ∧
  count is_open_read (trace w2) = 2%nat ∧
  heap w2 !! CACHE_DICT w2 = Some (PDict []) ∧
  cached key (CACHE_DICT w2) w2 = false ∧
  disk_cached Fixture.site w2 = true ∧
  disk_cached Fixture.site w3 = false.
Proof. repeat split; vm_compute; reflexivity. Qed.

(** * More on the key builder *)

Lemma string_app_assoc (s1 s2 s3 : string) : (s1 ++ s2) ++ s3 = s1 ++ (s2 ++ s3).
Proof.
  induction s1 as [|c s1 IH]; [done|].
  change (String c ((s1 ++ s2) ++ s3) = String c (s1 ++ (s2 ++ s3))).
  by rewrite IH.
Qed.

Lemma merge_sort_Sorted (l : list string) :
  Sorted String.le l → merge_sort String.le l = l.
Proof.
  intros Hsorted. apply (Sorted_unique String.le); [|done|].
  - apply Sorted_merge_sort, _.
  - apply merge_sort_Permutation.
Qed.

(** With one parameter, two keys are equal exactly when the values print the
    same. *)
Theorem single_param_key_discriminates `{Externals}
    (baseurl k : string) (v1 v2 : pyval) :
  construct_unique_key baseurl [(k, v1)] = construct_unique_key baseurl [(k, v2)]
  ↔ py_str v1 = py_str v2.
Proof.
  unfold construct_unique_key, param_string. simpl. rewrite String.eqb_refl. simpl.
  split.
  - intros Heq. by do 4 apply (inj (String.append _)) in Heq.
  - by intros ->.
Qed.

Lemma dict_keys_Permutation_str `{Externals} (p1 p2 : dict pyval) :
  NoDup (dict_keys p1) → NoDup (dict_keys p2) →
  (∀ k, py_str <$> dict_get k p1 = py_str <$> dict_get k p2) →
  dict_keys p1 ≡ₚ dict_keys p2.
Proof.
  intros Hnd1 Hnd2 Hsame. apply NoDup_Permutation; [done..|].
  intros k. rewrite <- !dict_get_keys.
  specialize (Hsame k).
  destruct (dict_get k p1), (dict_get k p2); simplify_eq/=; split; eauto;
    by intros [? [=]].
Qed.

(** The key sees a value only through [str]: dictionaries with the same
    names whose values print the same give the same key, whatever the types
    of the values. *)
Theorem key_sees_values_through_str `{Externals}
    (baseurl : string) (params1 params2 : dict pyval) :
  NoDup (dict_keys params1) →
  NoDup (dict_keys params2) →
  (∀ k, py_str <$> dict_get k params1 = py_str <$> dict_get k params2) →
  construct_unique_key baseurl params1 = construct_unique_key baseurl params2.
Proof.
  intros Hnd1 Hnd2 Hsame. unfold construct_unique_key.
  do 3 f_equal. apply merge_sort_Permutation_eq.
  rewrite (map_ext (param_string params2) (param_string params1)).
  - apply Permutation_map, dict_keys_Permutation_str; done.
  - intros k. unfold param_string. specialize (Hsame k).
    destruct (dict_get k params1), (dict_get k params2); simplify_eq/=; congruence.
Qed.

(** The number 10 and the string 10 are one and the same to the key. *)
Lemma key_sees_values_through_str_example :
  NoDup (dict_keys [("radius", PInt 10)]) ∧
  NoDup (dict_keys [("radius", PStr "10")]) ∧
  (∀ k, py_str <$> dict_get k [("radius", PInt 10)]
        = py_str <$> dict_get k [("radius", PStr "10")]) ∧
  construct_unique_key mapquest_url [("radius", PInt 10)]
  = construct_unique_key mapquest_url [("radius", PStr "10")].
Proof.
  assert (Hnd1 : NoDup (dict_keys [("radius", PInt 10)])) by compute_done.
  assert (Hnd2 : NoDup (dict_keys [("radius", PStr "10")])) by compute_done.
  assert (Hsame : ∀ k, py_str <$> dict_get k [("radius", PInt 10)]
                       = py_str <$> dict_get k [("radius", PStr "10")]).
  { intros k. simpl. destruct (String.eqb k "radius"); reflexivity. }
  split; [exact Hnd1|]. split; [exact Hnd2|]. split; [exact Hsame|].
  exact (key_sees_values_through_str mapquest_url _ _ Hnd1 Hnd2 Hsame).
Defined.

(** Keys are not unique: a value that holds the separator stands for further
    parameters. *)
Theorem keys_collide_through_separator `{Externals}
    (baseurl k1 v1 k2 v2 : string) :
  k1 ≠ k2 →
  String.le (k1 ++ "_" ++ v1) (k2 ++ "_" ++ v2) →
  construct_unique_key baseurl [(k1, PStr v1); (k2, PStr v2)]
  = construct_unique_key baseurl [(k1, PStr (v1 ++ "_" ++ k2 ++ "_" ++ v2))].
Proof.
  intros Hne Hle. unfold construct_unique_key, param_string. simpl.
  rewrite !String.eqb_refl.
  destruct (String.eqb_spec k2 k1) as [->|_]; [done|]. simpl.
  rewrite merge_sort_Sorted by (repeat constructor; done).
  simpl. unfold connector. by rewrite !string_app_assoc.
Qed.

Lemma keys_collide_example :
  "x" ≠ "y" ∧
  String.le ("x" ++ "_" ++ "1") ("y" ++ "_" ++ "2") ∧
  construct_unique_key "B" [("x", PStr "1"); ("y", PStr "2")]
  = construct_unique_key "B" [("x", PStr "1_y_2")].
Proof.
  assert (Hne : "x" ≠ "y") by discriminate.
  assert (Hle : String.le ("x" ++ "_" ++ "1") ("y" ++ "_" ++ "2")) by compute_done.
  split; [exact Hne|]. split; [exact Hle|].
  exact (keys_collide_through_separator "B" "x" "1" "y" "2" Hne Hle).
Defined.

(** * More on the fetchers *)

Section FetchMore.
Context `{Externals}.

Lemma url_fetch_not_dict (url : string) (cache : nat) (w : world) :
  is_dict (default PNone (heap w !! cache)) = false →
  make_url_request_using_cache url cache w = (Raise AttributeError, w).
Proof.
  intros Hnot. unfold make_url_request_using_cache. run.
  by destruct (default PNone (heap w !! cache)).
Qed.

Lemma api_fetch_not_dict (site : NationalSite) (w : world) :
  is_dict (on_disk w) = false →
  get_nearby_places site w
  = (Raise AttributeError, grown (logged w [EvOpenRead]) (on_disk w)).
Proof.
  intros Hnot. unfold get_nearby_places.
  remember (construct_unique_key mapquest_url (nearby_params site)) as key.
  unfold mbind at 1, M_bind at 1. rewrite open_cache_run. run.
  simpl. rewrite lookup_app_r, Nat.sub_diag by lia. simpl.
  by destruct (on_disk w).
Qed.

Lemma count_nil (kind : event → bool) : count kind [] = 0%nat.
Proof. reflexivity. Qed.

Lemma count_cons (kind : event → bool) (e : event) (t : list event) :
  count kind (e :: t) = ((if kind e then 1 else 0) + count kind t)%nat.
Proof.
  unfold count. rewrite filter_cons.
  destruct (kind e); case_decide; done.
Qed.

Lemma misses_spec (url : string) (cache : nat) (w : world) (d : dict pyval) :
  heap w !! cache = Some (PDict d) →
  misses url cache w = negb (bool_decide (is_Some (dict_get url d))).
Proof.
  intros Hc. unfold misses, dict_has. by rewrite Hc, existsb_eqb_keys.
Qed.

End FetchMore.

(** A request that fails on a miss: the delay came first, the exception
    leaves the fetch, and neither the dictionary nor the file has changed. *)
Theorem url_miss_request_fails `{Externals}
    (url : string) (cache : nat) (w : world) (d : dict pyval) :
  heap w !! cache = Some (PDict d) →
  dict_get url d = None →
  requests_get (trace w ++ [EvPrint "Fetching"; EvSleep 1]) url [] = None →
  make_url_request_using_cache url cache w
  = (Raise ConnectionError, logged w [EvPrint "Fetching"; EvSleep 1; EvGet url []]).
Proof.
  intros Hc Hv Hfail. by rewrite (url_miss _ _ _ _ Hc Hv), Hfail.
Qed.

(** A flush that fails on a miss: the exception leaves the fetch, but the
    page is in the dictionary, so the next fetch of the same URL is a hit
    that returns it without a request. *)
Theorem url_miss_flush_fails `{Externals}
    (url body : string) (cache : nat) (w : world) (d : dict pyval) :
  heap w !! cache = Some (PDict d) →
  dict_get url d = None →
  requests_get (trace w ++ [EvPrint "Fetching"; EvSleep 1]) url [] = Some body →
  cache_file w = Locked →
  ∃ w1, make_url_request_using_cache url cache w = (Raise PermissionError, w1) ∧
        cache_file w1 = Locked ∧
        heap w1 !! cache = Some (PDict (dict_set url (PStr body) d)) ∧
        make_url_request_using_cache url cache w1
        = (Ok (PStr body), logged w1 [EvPrint "Using cache"]).
Proof.
  intros Hc Hv Hbody Hfile. rewrite (url_miss _ _ _ _ Hc Hv), Hbody, Hfile.
  eexists. split; [reflexivity|]. split; [reflexivity|].
  assert (Hc1 : <[cache := PDict (dict_set url (PStr body) d)]> (heap w) !! cache
                = Some (PDict (dict_set url (PStr body) d)))
    by (apply list_lookup_insert_eq; by eapply lookup_lt_Some).
  split; [exact Hc1|].
  apply (url_hit _ _ _ (dict_set url (PStr body) d)); [exact Hc1|].
  apply dict_get_set_eq.
Qed.

(** The delay: a URL fetch sleeps once when it misses and never otherwise,
    whatever comes of the request; the API fetch never sleeps. *)
Theorem fetch_delays `{Externals} :
  (∀ url cache w,
     count is_sleep (trace (make_url_request_using_cache url cache w).2)
     = (count is_sleep (trace w) + if misses url cache w then 1 else 0)%nat) ∧
  (∀ site w,
     count is_sleep (trace (get_nearby_places site w).2) = count is_sleep (trace w)).
Proof.
  split.
  - intros url cache w.
    destruct (heap w !! cache) as [c|] eqn:Hc.
    2:{ rewrite url_fetch_not_dict by (by rewrite Hc).
        unfold misses. rewrite Hc. simpl. lia. }
    destruct (is_dict c) eqn:Hdict.
    2:{ rewrite url_fetch_not_dict by (by rewrite Hc).
        unfold misses. rewrite Hc. destruct c; try discriminate; simpl; lia. }
    destruct c as [| | | | | |d]; try discriminate.
    rewrite (misses_spec _ _ _ _ Hc).
    destruct (dict_get url d) as [v|] eqn:Hv.
    + rewrite (url_hit _ _ _ _ _ Hc Hv). (simpl; rewrite ?count_app, ?count_cons, ?count_nil; simpl; lia).
    + rewrite (url_miss _ _ _ _ Hc Hv).
      destruct (requests_get _ url []); [destruct (cache_file w)|]; (simpl; rewrite ?count_app, ?count_cons, ?count_nil; simpl; lia).
  - intros site w.
    destruct (is_dict (on_disk w)) eqn:Hdict.
    2:{ rewrite api_fetch_not_dict by done. (simpl; rewrite ?count_app, ?count_cons, ?count_nil; simpl; lia). }
    destruct (on_disk w) as [| | | | | |d] eqn:Hd; try discriminate.
    destruct (dict_get (construct_unique_key mapquest_url (nearby_params site)) d)
      as [v|] eqn:Hv.
    + rewrite (api_hit _ _ _ _ Hd Hv). (simpl; rewrite ?count_app, ?count_cons, ?count_nil; simpl; lia).
    + rewrite (api_miss _ _ _ Hd Hv).
      destruct (requests_get _ mapquest_url _); [destruct (json_loads _)|];
        [destruct (cache_file w)| |]; (simpl; rewrite ?count_app, ?count_cons, ?count_nil; simpl; lia).
Qed.

(** A page that is fetched replaces the cache file by the dump of the
    dictionary in memory: whatever else the file held is gone. *)
Theorem url_miss_replaces_file `{Externals}
    (url : string) (cache : nat) (w w1 : world) (v : pyval) :
  make_url_request_using_cache url cache w = (Ok v, w1) →
  misses url cache w = true →
  ∃ d, heap w !! cache = Some (PDict d) ∧
       heap w1 !! cache = Some (PDict (dict_set url v d)) ∧
       cache_file w1 = Content (json_dumps (PDict (dict_set url v d))) ∧
       ∀ site,
         json_loads (json_dumps (PDict (dict_set url v d)))
         = Some (PDict (dict_set url v d)) →
         construct_unique_key mapquest_url (nearby_params site) ≠ url →
         dict_get (construct_unique_key mapquest_url (nearby_params site)) d = None →
         disk_cached site w1 = false.
Proof.
  intros Hrun Hmiss. destruct (url_fetch_dict _ _ _ _ _ Hrun) as [d Hc].
  rewrite (misses_spec _ _ _ _ Hc) in Hmiss.
  destruct (dict_get url d) as [v0|] eqn:Hv; [discriminate|].
  rewrite (url_miss _ _ _ _ Hc Hv) in Hrun.
  destruct (requests_get _ url []) as [body|]; [|discriminate].
  assert (Hw1 : v = PStr body ∧ w1 = after_url_miss url body cache d w)
    by (destruct (cache_file w); naive_solver).
  destruct Hw1 as [-> ->]. exists d. unfold after_url_miss. simpl.
  split; [done|].
  split; [apply list_lookup_insert_eq; by eapply lookup_lt_Some|].
  split; [done|].
  intros site Hround Hne Hnone. unfold disk_cached, on_disk. simpl.
  rewrite Hround. simpl. unfold dict_has. rewrite existsb_eqb_keys.
  apply bool_decide_eq_false. rewrite dict_get_set_ne by done.
  rewrite Hnone. by intros [? [=]].
Qed.

(** A new process finds the pages of the last one: after the start of the
    process, a URL that the cache file holds is answered from the dictionary
    bound to [CACHE_DICT], without a request. *)
Theorem start_then_fetch_hits `{Externals}
    (url : string) (w : world) (d : dict pyval) (v : pyval) :
  on_disk w = PDict d →
  dict_get url d = Some v →
  ∃ w1, module_init w = (Ok (), w1) ∧
        heap w1 !! CACHE_DICT w1 = Some (PDict d) ∧
        make_url_request_using_cache url (CACHE_DICT w1) w1
        = (Ok v, logged w1 [EvPrint "Using cache"]).
Proof.
  intros Hd Hv. unfold module_init.
  unfold mbind at 1, M_bind at 1, alloc at 1.
  unfold mbind at 1, M_bind at 1, set_global at 1.
  unfold mbind at 1, M_bind at 1. rewrite open_cache_run. simpl.
  assert (Hhere : forall (A : Type) (l : list A) (x y : A), ((l ++ [x]) ++ [y])%list !!
           S (List.length l) = Some y).
  { intros A l x y. rewrite lookup_app_r; rewrite length_app; simpl; [|lia].
    by replace (S (List.length l) - (List.length l + 1))%nat with 0%nat by lia. }
  eexists. split; [reflexivity|]. simpl. rewrite length_app. simpl.
  replace (List.length (heap w) + 1)%nat with (S (List.length (heap w))) by lia.
  unfold on_disk in *. simpl. rewrite Hd.
  split; [apply Hhere|].
  apply (url_hit _ _ _ d); [apply Hhere | done].
Qed.

(** A cache file that holds JSON other than an object is loaded without a
    word, and then every fetch raises before it asks the network. *)
Theorem fetch_on_non_dict_cache `{Externals} (w : world) :
  is_dict (on_disk w) = false →
  (∀ site, ∃ w1, get_nearby_places site w = (Raise AttributeError, w1) ∧
                 count is_get (trace w1) = count is_get (trace w)) ∧
  ∃ w0, module_init w = (Ok (), w0) ∧
        ∀ url, make_url_request_using_cache url (CACHE_DICT w0) w0
               = (Raise AttributeError, w0).
Proof.
  intros Hnot. split.
  - intros site. rewrite api_fetch_not_dict by done. eexists. split; [done|].
    simpl. rewrite ?count_app, ?count_cons, ?count_nil. simpl. lia.
  - unfold module_init.
    unfold mbind at 1, M_bind at 1, alloc at 1.
    unfold mbind at 1, M_bind at 1, set_global at 1.
    unfold mbind at 1, M_bind at 1. rewrite open_cache_run. simpl.
    eexists. split; [reflexivity|]. intros url.
    apply url_fetch_not_dict. simpl. rewrite length_app. simpl.
    rewrite lookup_app_r; rewrite length_app; simpl; [|lia].
    replace (List.length (heap w) + 1 - (List.length (heap w) + 1))%nat with 0%nat by lia.
    simpl. unfold on_disk in *. by simpl.
Qed.


(** * More on the extractors *)

(** A site page yields a record exactly when it has its title, designation
    and telephone markers, and the only exception the extraction raises is
    [AttributeError]. The fields of the record are the trimmed texts of the
    markers, the address being the locality, a comma, a space and the region
    when both are marked. *)
Theorem extract_site_record_outcome (site_soup : node) :
  ((∃ r, extract_site_record site_soup = Ok r)
   ↔ is_Some (title_tag site_soup) ∧ is_Some (designation_tag site_soup) ∧
     is_Some (telephone_tag site_soup)) ∧
  (∀ e, extract_site_record site_soup = Raise e → e = AttributeError) ∧
  (∀ r, extract_site_record site_soup = Ok r →
        Some (name r) = (λ t, strip (get_text t)) <$> title_tag site_soup ∧
        Some (category r) = (λ t, strip (get_text t)) <$> designation_tag site_soup ∧
        Some (phone r) = (λ t, strip (get_text t)) <$> telephone_tag site_soup ∧
        (∀ c s, locality_tag site_soup = Some c → region_tag site_soup = Some s →
                address r = strip (get_text c) ++ ", " ++ strip (get_text s)) ∧
        (∀ z, postal_tag site_soup = Some z → zipcode r = strip (get_text z))).
Proof.
  destruct (title_tag site_soup) as [t|] eqn:Ht.
  2:{ pose proof (extract_site_record_raises site_soup (or_introl Ht)) as Hraise.
      rewrite Hraise. split; [|split]; [|congruence|discriminate].
      split; [intros [r [=]] | intros [[? [=]] _]]. }
  destruct (telephone_tag site_soup) as [p|] eqn:Hp.
  2:{ pose proof (extract_site_record_raises site_soup (or_intror Hp)) as Hraise.
      rewrite Hraise. split; [|split]; [|congruence|discriminate].
      split; [intros [r [=]] | intros (_ & _ & [? [=]])]. }
  destruct (designation_tag site_soup) as [d|] eqn:Hd.
  2:{ assert (Hraise : extract_site_record site_soup = Raise AttributeError).
      { unfold title_tag, designation_tag, extract_site_record in *. run_res.
        by rewrite Ht, Hd. }
      rewrite Hraise. split; [|split]; [|congruence|discriminate].
      split; [intros [r [=]] | intros (_ & [? [=]] & _)]. }
  rewrite (extract_site_record_ok _ _ _ _ Ht Hd Hp). split; [|split].
  - split; eauto.
  - discriminate.
  - intros r [= <-]. simpl. repeat split; [by intros c s -> ->|by intros z ->].
Qed.

(** * More on the region index *)

Lemma lower_char_idemp (c : ascii) : lower_char (lower_char c) = lower_char c.
Proof. by destruct c as [[] [] [] [] [] [] [] []]. Qed.

Lemma lower_ascii_idemp (s : string) : lower_ascii (lower_ascii s) = lower_ascii s.
Proof.
  induction s as [|c s IH]; [done|]. simpl. by rewrite lower_char_idemp, IH.
Qed.

Lemma lower_char_ascii (c : ascii) :
  (nat_of_ascii c <? 128)%nat = true → (nat_of_ascii (lower_char c) <? 128)%nat = true.
Proof. by destruct c as [[] [] [] [] [] [] [] []]. Qed.

Lemma is_ascii_String (c : ascii) (s : string) :
  is_ascii (String c s) = (nat_of_ascii c <? 128)%nat && is_ascii s.
Proof. reflexivity. Qed.

Lemma lower_ascii_is_ascii (s : string) :
  is_ascii s = true → is_ascii (lower_ascii s) = true.
Proof.
  induction s as [|c s IH]; [done|]. simpl lower_ascii. rewrite !is_ascii_String.
  intros [Hc Hs]%andb_prop. by rewrite (lower_char_ascii _ Hc), (IH Hs).
Qed.

Lemma is_ascii_rev (s : string) : is_ascii (String.rev s) = is_ascii s.
Proof.
  assert (Hgo : ∀ s acc, is_ascii (String.rev_app s acc) = is_ascii s && is_ascii acc).
  { clear s. induction s as [|c s IH]; intros acc; [done|].
    simpl String.rev_app. rewrite IH, !is_ascii_String.
    by destruct (nat_of_ascii c <? 128)%nat, (is_ascii s), (is_ascii acc). }
  unfold String.rev. rewrite Hgo. apply andb_true_r.
Qed.

(** On an ASCII string only the one-byte white space is met. *)
Lemma strip_front_is_ascii (backwards : bool) (s : string) :
  is_ascii s = true → is_ascii (strip_front backwards s) = true.
Proof.
  induction s as [|c1 s1 IH]; [done|]. intros Hs.
  pose proof Hs as Hs'. rewrite is_ascii_String in Hs'.
  apply andb_prop in Hs' as [Hc1 Hs1]. simpl.
  destruct (is_py_space c1); [by apply IH|].
  assert (Hlead : (nat_of_ascii c1 =? 194)%nat = false
                  ∧ (nat_of_ascii c1 =? 128)%nat = false
                  ∧ (nat_of_ascii c1 =? 225)%nat = false
                  ∧ (nat_of_ascii c1 =? 226)%nat = false
                  ∧ (nat_of_ascii c1 =? 227)%nat = false
                  ∧ (nat_of_ascii c1 =? 133)%nat = false
                  ∧ (nat_of_ascii c1 =? 160)%nat = false
                  ∧ (nat_of_ascii c1 =? 159)%nat = false
                  ∧ (nat_of_ascii c1 =? 168)%nat = false
                  ∧ (nat_of_ascii c1 =? 169)%nat = false
                  ∧ (nat_of_ascii c1 =? 175)%nat = false
                  ∧ (128 <=? nat_of_ascii c1)%nat = false).
  { apply Nat.ltb_lt in Hc1. repeat split;
      first [apply Nat.eqb_neq | apply Nat.leb_gt]; lia. }
  destruct Hlead as (H194 & H128 & H225 & H226 & H227 & H133 & H160 & H159 & H168
                     & H169 & H175 & Hle).
  destruct s1 as [|c2 s2]; [done|].
  assert (H2 : (if backwards then is_py_space2 c2 c1 else is_py_space2 c1 c2) = false).
  { unfold is_py_space2. destruct backwards; cbn zeta.
    - by rewrite H133, H160, andb_false_r.
    - by rewrite H194. }
  rewrite H2. destruct s2 as [|c3 s3]; [done|].
  assert (H3 : (if backwards then is_py_space3 c3 c2 c1 else is_py_space3 c1 c2 c3) = false).
  { unfold is_py_space3. destruct backwards; cbn zeta.
    - rewrite H128, H159, H168, H169, H175, Hle. simpl.
      by rewrite !andb_false_r.
    - by rewrite H225, H226, H227. }
  by rewrite H3.
Qed.

Lemma strip_is_ascii (s : string) : is_ascii s = true → is_ascii (strip s) = true.
Proof.
  intros Hs. unfold strip, rstrip, lstrip.
  rewrite is_ascii_rev. apply strip_front_is_ascii.
  rewrite is_ascii_rev. by apply strip_front_is_ascii.
Qed.

Section RegionIndex.
Context `{Externals}.

Lemma lower_on_ascii (s : string) : is_ascii s = true → lower s = lower_ascii s.
Proof. unfold lower. by intros ->. Qed.

(** The key that an entry with an ASCII text gets. *)
Lemma lower_strip_ascii (t : string) :
  is_ascii t = true →
  is_ascii (lower (strip t)) = true ∧ lower (lower (strip t)) = lower (strip t).
Proof.
  intros Ht. pose proof (strip_is_ascii _ Ht) as Hstrip.
  rewrite (lower_on_ascii _ Hstrip).
  pose proof (lower_ascii_is_ascii _ Hstrip) as Hlow.
  split; [done|]. rewrite (lower_on_ascii _ Hlow). apply lower_ascii_idemp.
Qed.

End RegionIndex.

Lemma dict_set_elem_of {V} (k k0 : string) (v v0 : V) (d : dict V) :
  (k0, v0) ∈ dict_set k v d → (k0, v0) = (k, v) ∨ (k0, v0) ∈ d.
Proof.
  induction d as [|[k' v'] d IH]; simpl.
  - intros Hin. left. by apply list_elem_of_singleton in Hin.
  - destruct (String.eqb k k').
    + intros [->|Hin]%elem_of_cons; [by left | right; by right].
    + intros [->|Hin]%elem_of_cons; [right; by left|].
      destruct (IH Hin) as [->|Hd]; [by left | right; by right].
Qed.

Lemma state_entry_inv `{Externals}
    (states_dict states_dict' : dict string) (state : node) :
  state_entry states_dict state = Ok states_dict' →
  ∃ e, entry_of state = Some e ∧ states_dict' = add_entry states_dict e.
Proof.
  unfold state_entry, entry_of, add_entry.
  destruct (find (Some "a") None state) as [[|nm attrs cs]|]; try discriminate.
  simpl. destruct (dict_get "href" attrs) as [[path|]|]; try discriminate.
  run_res. intros [= <-]. by eexists.
Qed.

(** What comes out of the loop over the entries keeps what went in. *)
Lemma res_fold_state_entry_inv `{Externals} (P Q : string * string → Prop)
    (lis : list node) (d0 d : dict string) :
  (∀ e, Q e → P (lower (strip e.1), BASE_URL ++ e.2)) →
  Forall (λ li, ∀ e, entry_of li = Some e → Q e) lis →
  res_fold state_entry d0 lis = Ok d →
  Forall P d0 → Forall P d.
Proof.
  intros HP Hlis. revert d0. induction Hlis as [|li lis Hli _ IH]; intros d0; simpl.
  - by intros [= <-].
  - destruct (state_entry d0 li) as [d1|e] eqn:Hentry; [|discriminate].
    destruct (state_entry_inv _ _ _ Hentry) as (e & He & ->).
    intros Hfold Hd0. apply (IH _ Hfold).
    apply Forall_forall. intros [k v] [Heq|Hin]%dict_set_elem_of.
    + rewrite Heq. apply HP. by apply Hli.
    + by eapply Forall_forall in Hin.
Qed.

(** The names of the region index are in lower case, which is how the main
    program looks names up: when the texts of the entries are ASCII, every
    name is an ASCII string that [lower] leaves as it is, so it holds no
    capital letter. Every link starts with the base URL. *)
Theorem region_index_names_are_lower_case `{Externals}
    (soup dropdown : node) (states_dict : dict string) :
  find None (Some ("class", "dropdown-menu SearchBar-keywordSearch")) soup = Some dropdown →
  Forall (λ li, ∀ e, entry_of li = Some e → is_ascii e.1 = true)
    (find_all (Some "li") None dropdown) →
  extract_region_index soup = Ok states_dict →
  ∀ state_name state_url, (state_name, state_url) ∈ states_dict →
    is_ascii state_name = true ∧
    lower state_name = state_name ∧
    lower_ascii state_name = state_name ∧
    ∃ path, state_url = BASE_URL ++ path.
Proof.
  unfold extract_region_index. intros -> Htexts. simpl.
  intros Hfold state_name state_url Hin.
  assert (Hall : Forall (λ kv, is_ascii kv.1 = true ∧ lower kv.1 = kv.1
                               ∧ lower_ascii kv.1 = kv.1
                               ∧ ∃ path, kv.2 = BASE_URL ++ path) states_dict).
  { eapply (res_fold_state_entry_inv _ (λ e, is_ascii e.1 = true));
      [|exact Htexts|exact Hfold|constructor].
    intros e He. simpl. destruct (lower_strip_ascii _ He) as [Hascii Hidem].
    split; [done|]. split; [done|]. split; [|by eexists].
    by rewrite <- (lower_on_ascii _ Hascii). }
  rewrite Forall_forall in Hall. exact (Hall _ Hin).
Qed.

Lemma res_fold_app {A B} (body : B → A → res B) (acc : B) (xs ys : list A) :
  res_fold body acc (xs ++ ys) = acc' ← res_fold body acc xs; res_fold body acc' ys.
Proof.
  revert acc. induction xs as [|x xs IH]; intros acc; [done|].
  simpl. destruct (body acc x) as [acc'|e]; [apply IH | done].
Qed.

Lemma res_fold_state_entry_Forall `{Externals} (lis : list node) (d0 : dict string) :
  Forall (λ li, is_Some (entry_of li)) lis → ∃ d, res_fold state_entry d0 lis = Ok d.
Proof.
  intros Hall. revert d0. induction Hall as [|li lis [e He] _ IH]; intros d0.
  - by eexists.
  - simpl. rewrite (state_entry_run _ _ _ He). apply IH.
Qed.

(** How the extraction of the region index fails: without the dropdown it
    raises [AttributeError]; the first entry without an anchor raises
    [TypeError], the first entry whose anchor has no [href] raises [KeyError],
    and in both cases the entries before it are lost with it. An empty
    dropdown yields an empty index. *)
Theorem region_index_failures `{Externals} (soup : node) :
  (find None (Some ("class", "dropdown-menu SearchBar-keywordSearch")) soup = None →
   extract_region_index soup = Raise AttributeError) ∧
  (∀ dropdown,
     find None (Some ("class", "dropdown-menu SearchBar-keywordSearch")) soup
     = Some dropdown →
     (find_all (Some "li") None dropdown = [] → extract_region_index soup = Ok []) ∧
     ∀ before li after,
       find_all (Some "li") None dropdown = (before ++ li :: after)%list →
       Forall (λ x, is_Some (entry_of x)) before →
       (find (Some "a") None li = None →
        extract_region_index soup = Raise TypeError) ∧
       (∀ nm attrs children,
          find (Some "a") None li = Some (NTag nm attrs children) →
          dict_get "href" attrs = None →
          extract_region_index soup = Raise KeyError)).
Proof.
  unfold extract_region_index. split; [by intros ->|].
  intros dropdown ->. simpl. split; [by intros ->|].
  intros before li after -> Hbefore.
  destruct (res_fold_state_entry_Forall before [] Hbefore) as [d Hd].
  rewrite res_fold_app, Hd.
  change (acc' ← Ok d; res_fold state_entry acc' (li :: after))
    with (acc' ← state_entry d li; res_fold state_entry acc' after).
  split.
  - intros Hnone. unfold state_entry. by rewrite Hnone.
  - intros nm attrs children Ha Hhref. unfold state_entry.
    rewrite Ha. simpl. by rewrite Hhref.
Qed.

Lemma build_state_url_dict_run `{Externals} (w : world) :
  build_state_url_dict w
  = match make_url_request_using_cache (BASE_URL ++ STATES_INDEX_PATH) (CACHE_DICT w) w with
    | (Ok index_text, w1) =>
        (soup ← BeautifulSoup index_text; extract_region_index soup, w1)
    | (Raise e, w1) => (Raise e, w1)
    end.
Proof.
  unfold build_state_url_dict. run.
  destruct (make_url_request_using_cache _ (CACHE_DICT w) w) as [[text|e] w1]; [|done].
  by destruct (BeautifulSoup text).
Qed.

(** The region index, asked for again: the same index from the cached page,
    with one hit and nothing else. *)
Theorem build_state_url_dict_twice `{Externals}
    (w w1 : world) (states_dict : dict string) :
  build_state_url_dict w = (Ok states_dict, w1) →
  build_state_url_dict w1 = (Ok states_dict, logged w1 [EvPrint "Using cache"]).
Proof.
  rewrite !build_state_url_dict_run.
  pose proof (works_on_url_fetch (BASE_URL ++ STATES_INDEX_PATH) (CACHE_DICT w) w)
    as (_ & Hsame & _).
  destruct (make_url_request_using_cache _ (CACHE_DICT w) w) as [[text|e] wa] eqn:Hfetch;
    [|discriminate].
  simpl in Hsame. intros [= Hextract <-]. rewrite Hsame.
  destruct (url_fetch_twice _ _ _ _ _ Hfetch) as [-> _].
  by rewrite Hextract.
Qed.

(** * The listing of a state *)

Lemma grows_from_refl (g : nat) (w : world) : grows_from g w w.
Proof. by split. Qed.

Lemma grows_from_trans (g : nat) (w1 w2 w3 : world) :
  grows_from g w1 w2 → grows_from g w2 w3 → grows_from g w1 w3.
Proof. intros [Hg1 Hh1] [Hg2 Hh2]. split; [congruence | eauto]. Qed.

Lemma holds_logged (g : nat) (key : string) (v : pyval) (w : world) (es : list event) :
  holds g key v w → holds g key v (logged w es).
Proof. done. Qed.

Lemma holds_insert (g : nat) (key url : string) (v x : pyval) (w : world)
    (d : dict pyval) (f : file_state) (t : list event) :
  heap w !! g = Some (PDict d) →
  dict_get url d = None →
  holds g key v w →
  holds g key v (World f (<[g := PDict (dict_set url x d)]> (heap w)) (CACHE_DICT w) t).
Proof.
  intros Hc Hnone (d' & Hd' & Hkey). rewrite Hc in Hd'. injection Hd' as <-.
  exists (dict_set url x d). simpl. split.
  - apply list_lookup_insert_eq. by eapply lookup_lt_Some.
  - rewrite dict_get_set_ne; [done|]. intros ->. congruence.
Qed.

Section Listing.
Context `{Externals}.

(** A fetch never takes a binding away from the dictionary it works on. *)
Lemma url_fetch_grows (url : string) (cache : nat) (w : world) :
  grows_from cache w (make_url_request_using_cache url cache w).2.
Proof.
  destruct (is_dict (default PNone (heap w !! cache))) eqn:Hdict.
  2:{ rewrite url_fetch_not_dict by done. apply grows_from_refl. }
  destruct (heap w !! cache) as [[| | | | | |d]|] eqn:Hc; try discriminate.
  destruct (dict_get url d) as [v|] eqn:Hv.
  - rewrite (url_hit _ _ _ _ _ Hc Hv). by split.
  - rewrite (url_miss _ _ _ _ Hc Hv).
    destruct (requests_get _ url []) as [body|]; [|by split].
    destruct (cache_file w); (split; [done|]); intros key v Hkey;
      by apply holds_insert.
Qed.

Lemma url_fetch_holds (url : string) (cache : nat) (w w1 : world) (v : pyval) :
  make_url_request_using_cache url cache w = (Ok v, w1) → holds cache url v w1.
Proof.
  intros Hrun. destruct (url_fetch_dict _ _ _ _ _ Hrun) as [d Hc].
  destruct (dict_get url d) as [v0|] eqn:Hv.
  - rewrite (url_hit _ _ _ _ _ Hc Hv) in Hrun. injection Hrun as <- <-.
    by exists d.
  - rewrite (url_miss _ _ _ _ Hc Hv) in Hrun.
    destruct (requests_get _ url []) as [body|]; [|discriminate].
    assert (Hw1 : v = PStr body ∧ w1 = after_url_miss url body cache d w)
      by (destruct (cache_file w); naive_solver).
    destruct Hw1 as [-> ->]. exists (dict_set url (PStr body) d). split.
    + simpl. apply list_lookup_insert_eq. by eapply lookup_lt_Some.
    + apply dict_get_set_eq.
Qed.

Lemma get_site_instance_run (site_url : string) (w : world) :
  get_site_instance site_url w
  = match make_url_request_using_cache site_url (CACHE_DICT w) w with
    | (Ok site_text, w1) =>
        (site_soup ← BeautifulSoup site_text; extract_site_record site_soup, w1)
    | (Raise e, w1) => (Raise e, w1)
    end.
Proof.
  unfold get_site_instance. run.
  destruct (make_url_request_using_cache site_url (CACHE_DICT w) w) as [[text|e] w1];
    [|done].
  by destruct (BeautifulSoup text).
Qed.

Lemma get_site_instance_grows (site_url : string) : growing (get_site_instance site_url).
Proof.
  intros w. rewrite get_site_instance_run.
  pose proof (url_fetch_grows site_url (CACHE_DICT w) w) as Hgrows.
  by destruct (make_url_request_using_cache site_url (CACHE_DICT w) w) as [[text|e] w1].
Qed.

Lemma add_site_run (list_of_sites : list NationalSite) (park : node) (w : world) :
  add_site list_of_sites park w
  = match park_url park with
    | Ok url =>
        match get_site_instance url w with
        | (Ok site, w1) => (Ok (list_of_sites ++ [site])%list, w1)
        | (Raise e, w1) => (Raise e, w1)
        end
    | Raise e => (Raise e, w)
    end.
Proof.
  unfold add_site, park_url. run. run_res.
  destruct (attr_of (find (Some "a") None park) "href") as [path|]; [|done].
  destruct (str_add BASE_URL path) as [url|]; [|done].
  by destruct (get_site_instance url w) as [[site|e] w1].
Qed.

Lemma add_site_grows (list_of_sites : list NationalSite) (park : node) :
  growing (add_site list_of_sites park).
Proof.
  intros w. rewrite add_site_run.
  destruct (park_url park) as [url|]; [|apply grows_from_refl].
  pose proof (get_site_instance_grows url w) as Hgrows.
  by destruct (get_site_instance url w) as [[site|e] w1].
Qed.

Lemma fold_add_site_grows (parks : list node) (acc : list NationalSite) :
  growing (M_fold add_site acc parks).
Proof.
  revert acc. induction parks as [|park parks IH]; intros acc w; simpl.
  - apply grows_from_refl.
  - unfold mbind, M_bind.
    pose proof (add_site_grows acc park w) as Hstep.
    destruct (add_site acc park w) as [[acc'|e] w1]; [|done].
    eapply grows_from_trans; [exact Hstep|].
    pose proof (IH acc' w1) as Hrest. simpl in *.
    by replace (CACHE_DICT w1) with (CACHE_DICT w) in Hrest by (symmetry; apply Hstep).
Qed.

(** The first pass: every row has its page in the dictionary at the end, and
    the sites are the records of these pages, in the order of the rows. *)
Lemma fold_add_site_rows (parks : list node) (acc sites : list NationalSite)
    (w w1 : world) :
  M_fold add_site acc parks w = (Ok sites, w1) →
  ∃ new, sites = (acc ++ new)%list ∧
         Forall2 (site_of_row (CACHE_DICT w) w1) parks new.
Proof.
  revert acc w. induction parks as [|park parks IH]; intros acc w; simpl.
  - intros [= <- <-]. exists []. by rewrite app_nil_r.
  - unfold mbind, M_bind.
    pose proof (add_site_grows acc park w) as Hstep.
    rewrite add_site_run in *.
    destruct (park_url park) as [url|] eqn:Hurl; [|discriminate].
    rewrite get_site_instance_run in *.
    destruct (make_url_request_using_cache url (CACHE_DICT w) w)
      as [[text|e] w2] eqn:Hfetch; [|discriminate].
    destruct (BeautifulSoup text) as [soup|] eqn:Hsoup; [|discriminate].
    simpl in *. unfold mbind, res_bind in *.
    destruct (extract_site_record soup) as [site|] eqn:Hsite; [|discriminate].
    intros Hrest. destruct (IH _ _ Hrest) as (new & -> & Hall).
    pose proof (fold_add_site_grows parks (acc ++ [site]) w2) as Hgrows.
    rewrite Hrest in Hgrows. simpl in Hgrows.
    assert (Hsame : CACHE_DICT w2 = CACHE_DICT w) by apply Hstep.
    rewrite Hsame in *.
    exists (site :: new). split; [by rewrite <- app_assoc|].
    constructor; [|done].
    exists url, text, soup. repeat split; try done.
    apply Hgrows. by eapply url_fetch_holds.
Qed.

(** A later pass over rows whose pages are in the dictionary bound to
    [CACHE_DICT]: the same sites, and one hit for each row. *)
Lemma fold_add_site_replay (parks : list node) (acc new : list NationalSite)
    (u : world) :
  Forall2 (site_of_row (CACHE_DICT u) u) parks new →
  M_fold add_site acc parks u
  = (Ok (acc ++ new)%list,
     logged u (replicate (List.length parks) (EvPrint "Using cache"))).
Proof.
  revert acc new u. induction parks as [|park parks IH]; intros acc new u Hrows.
  - apply Forall2_nil_inv_l in Hrows as ->. simpl.
    unfold logged. rewrite !app_nil_r. by destruct u.
  - apply Forall2_cons_inv_l in Hrows
      as (site & new' & (url & text & soup & Hurl & (d & Hd & Htext) & Hsoup & Hsite)
          & Hrest & ->).
    simpl. unfold mbind, M_bind.
    rewrite add_site_run, Hurl, get_site_instance_run.
    rewrite (url_hit _ _ _ _ _ Hd Htext), Hsoup. simpl.
    unfold mbind, res_bind. rewrite Hsite.
    rewrite (IH _ new' (logged u [EvPrint "Using cache"])) by exact Hrest.
    unfold logged. simpl. by rewrite <- !app_assoc.
Qed.

Lemma get_sites_for_state_run (state_url : string) (w : world) :
  get_sites_for_state state_url w
  = match make_url_request_using_cache state_url (CACHE_DICT w) w with
    | (Ok state_text, w1) =>
        match BeautifulSoup state_text with
        | Ok state_soup => M_fold add_site [] (rows state_soup) w1
        | Raise e => (Raise e, w1)
        end
    | (Raise e, w1) => (Raise e, w1)
    end.
Proof.
  unfold get_sites_for_state. run.
  destruct (make_url_request_using_cache state_url (CACHE_DICT w) w) as [[text|e] w1];
    [|done].
  by destruct (BeautifulSoup text).
Qed.

(** What a listing that returned has done. *)
Lemma get_sites_for_state_inv (state_url : string) (w w1 : world)
    (sites : list NationalSite) :
  get_sites_for_state state_url w = (Ok sites, w1) →
  CACHE_DICT w1 = CACHE_DICT w ∧
  ∃ state_text state_soup,
    holds (CACHE_DICT w) state_url state_text w1 ∧
    BeautifulSoup state_text = Ok state_soup ∧
    Forall2 (site_of_row (CACHE_DICT w) w1) (rows state_soup) sites.
Proof.
  rewrite get_sites_for_state_run.
  pose proof (url_fetch_grows state_url (CACHE_DICT w) w) as Hfetch_grows.
  destruct (make_url_request_using_cache state_url (CACHE_DICT w) w)
    as [[text|e] wa] eqn:Hfetch; [|discriminate].
  destruct (BeautifulSoup text) as [soup|] eqn:Hsoup; [|discriminate].
  intros Hfold.
  pose proof (fold_add_site_grows (rows soup) [] wa) as Hgrows.
  rewrite Hfold in Hgrows. simpl in *.
  assert (Hsame : CACHE_DICT wa = CACHE_DICT w) by apply Hfetch_grows.
  rewrite Hsame in *.
  destruct (fold_add_site_rows _ _ _ _ _ Hfold) as (new & -> & Hall).
  rewrite Hsame in Hall.
  split; [destruct Hgrows; congruence|].
  exists text, soup. split; [|done].
  apply Hgrows. by eapply url_fetch_holds.
Qed.

End Listing.

(** A listing that returned holds one site for each result row of the state
    page, in the order of the rows: the record extracted from the page that
    the dictionary bound to [CACHE_DICT] now holds for the link of the row. *)
Theorem get_sites_for_state_lists_rows `{Externals}
    (state_url : string) (w w1 : world) (sites : list NationalSite) :
  get_sites_for_state state_url w = (Ok sites, w1) →
  ∃ state_text state_soup,
    holds (CACHE_DICT w) state_url state_text w1 ∧
    BeautifulSoup state_text = Ok state_soup ∧
    List.length sites = List.length (rows state_soup) ∧
    Forall2 (site_of_row (CACHE_DICT w) w1) (rows state_soup) sites.
Proof.
  intros Hrun.
  destruct (get_sites_for_state_inv _ _ _ _ Hrun) as (_ & text & soup & Htext & Hsoup & Hall).
  exists text, soup. repeat split; try done.
  symmetry. by eapply Forall2_length.
Qed.

(** A listing that returned, asked for again: the same sites, and nothing
    but hits, one for the state page and one for each site. *)
Theorem get_sites_for_state_twice `{Externals}
    (state_url : string) (w w1 : world) (sites : list NationalSite) :
  get_sites_for_state state_url w = (Ok sites, w1) →
  get_sites_for_state state_url w1
  = (Ok sites, logged w1 (replicate (S (List.length sites)) (EvPrint "Using cache"))).
Proof.
  intros Hrun.
  destruct (get_sites_for_state_inv _ _ _ _ Hrun)
    as (Hsame & text & soup & (d & Hd & Htext) & Hsoup & Hall).
  rewrite <- Hsame in Hd, Hall.
  rewrite get_sites_for_state_run, (url_hit _ _ _ _ _ Hd Htext), Hsoup.
  rewrite (fold_add_site_replay _ [] sites) by exact Hall.
  rewrite (Forall2_length _ _ _ Hall).
  unfold logged. simpl. by rewrite <- app_assoc.
Qed.

(** * More on the selection prompt *)




(** * More on the nearby places *)

(** A reply whose results all yield a place is printed in full, one line for
    each result in the order of the reply, and nothing else happens; a reply
    without the key [searchResults] raises [KeyError] before a line is
    printed. *)
Theorem formatted_nearby_places_prints `{Externals} :
  (∀ api_resp results places w,
     py_getitem api_resp "searchResults" = Ok results →
     py_len results = Ok (List.length places) →
     (∀ i p, places !! i = Some p → nearby_place results i = Ok p) →
     formatted_nearby_places api_resp w
     = (Ok (), logged w (map (λ p, EvPrint (place_line p)) places))) ∧
  (∀ d w, dict_get "searchResults" d = None →
          formatted_nearby_places (PDict d) w = (Raise KeyError, w)).
Proof.
  split.
  - intros api_resp results places w Hres Hlen Hplaces.
    by apply (formatted_nearby_places_run api_resp results (List.length places) places w).
  - intros d w Hnone. unfold formatted_nearby_places. simpl. by rewrite Hnone.
Qed.

Lemma extract_site_record_Ok_zip (site_soup : node) (site : NationalSite) :
  extract_site_record site_soup = Ok site →
  postal_tag site_soup = None →
  zipcode site = "No zipcode".
Proof.
  intros Hsite Hzip.
  destruct (title_tag site_soup) as [t|] eqn:Ht.
  2:{ rewrite (extract_site_record_raises site_soup (or_introl Ht)) in Hsite.
      discriminate. }
  destruct (telephone_tag site_soup) as [p|] eqn:Hp.
  2:{ rewrite (extract_site_record_raises site_soup (or_intror Hp)) in Hsite.
      discriminate. }
  destruct (designation_tag site_soup) as [d|] eqn:Hd.
  - rewrite (extract_site_record_ok _ _ _ _ Ht Hd Hp), Hzip in Hsite.
    by injection Hsite as <-.
  - unfold title_tag, designation_tag, extract_site_record in *. run_res.
    rewrite Ht, Hd in Hsite. discriminate.
Qed.

(** The sentinel travels: for a site whose page has no postal code, a lookup
    that misses asks the search API for the places around [No zipcode]. *)
Theorem missing_postal_code_becomes_origin `{Externals}
    (site_soup : node) (site : NationalSite) (w : world) (d : dict pyval) :
  extract_site_record site_soup = Ok site →
  postal_tag site_soup = None →
  on_disk w = PDict d →
  dict_get (construct_unique_key mapquest_url (nearby_params site)) d = None →
  ∃ params, EvGet mapquest_url params ∈ trace (get_nearby_places site w).2 ∧
            dict_get "origin" params = Some (PStr "No zipcode").
Proof.
  intros Hsite Hzip Hd Hmiss.
  exists (nearby_params site). split.
  - rewrite (api_miss _ _ _ Hd Hmiss).
    destruct (requests_get _ mapquest_url _); [destruct (json_loads _)|];
      [destruct (cache_file w)| |]; simpl;
      apply elem_of_app; right; do 2 (apply elem_of_cons; right);
      apply elem_of_cons; by left.
  - simpl. by rewrite (extract_site_record_Ok_zip _ _ Hsite Hzip).
Qed.

(** * More examples *)

Lemma url_miss_request_fails_example :
  let url := "https://www.nps.gov/index.htm" in
  heap Fixture.fresh !! 0%nat = Some (PDict []) ∧
  dict_get url [] = (None : option pyval) ∧
  @requests_get Samples.offline
    (trace Fixture.fresh ++ [EvPrint "Fetching"; EvSleep 1]) url [] = None ∧
  @make_url_request_using_cache Samples.offline url 0 Fixture.fresh
  = (Raise ConnectionError,
     logged Fixture.fresh [EvPrint "Fetching"; EvSleep 1; EvGet url []]).
Proof.
  intros url.
  assert (Hc : heap Fixture.fresh !! 0%nat = Some (PDict [])) by reflexivity.
  assert (Hv : dict_get url [] = (None : option pyval)) by reflexivity.
  assert (Hfail : @requests_get Samples.offline
            (trace Fixture.fresh ++ [EvPrint "Fetching"; EvSleep 1]) url [] = None)
    by reflexivity.
  split; [exact Hc|]. split; [exact Hv|]. split; [exact Hfail|].
  exact (@url_miss_request_fails Samples.offline url 0%nat Fixture.fresh [] Hc Hv Hfail).
Defined.

Lemma url_miss_flush_fails_example :
  let url := "https://www.nps.gov/index.htm" in
  heap Samples.locked !! 0%nat = Some (PDict []) ∧
  dict_get url [] = (None : option pyval) ∧
  requests_get (trace Samples.locked ++ [EvPrint "Fetching"; EvSleep 1]) url []
  = Some Fixture.empty_reply ∧
  cache_file Samples.locked = Locked ∧
  ∃ w1, make_url_request_using_cache url 0 Samples.locked = (Raise PermissionError, w1) ∧
        cache_file w1 = Locked ∧
        heap w1 !! 0%nat = Some (PDict (dict_set url (PStr Fixture.empty_reply) [])) ∧
        make_url_request_using_cache url 0 w1
        = (Ok (PStr Fixture.empty_reply), logged w1 [EvPrint "Using cache"]).
Proof.
  intros url.
  assert (Hc : heap Samples.locked !! 0%nat = Some (PDict [])) by reflexivity.
  assert (Hv : dict_get url [] = (None : option pyval)) by reflexivity.
  assert (Hbody : requests_get (trace Samples.locked ++ [EvPrint "Fetching"; EvSleep 1])
                    url [] = Some Fixture.empty_reply) by reflexivity.
  assert (Hfile : cache_file Samples.locked = Locked) by reflexivity.
  split; [exact Hc|]. split; [exact Hv|]. split; [exact Hbody|]. split; [exact Hfile|].
  exact (url_miss_flush_fails url Fixture.empty_reply 0%nat Samples.locked []
           Hc Hv Hbody Hfile).
Defined.

(** The reply of the search API is in the cache file; the index page is
    fetched; the reply is no longer in the file. *)
Lemma url_miss_replaces_file_example :
  let url := "https://www.nps.gov/index.htm" in
  let w := Samples.reply_on_disk in
  let w1 := (@make_url_request_using_cache Samples.park_service url (CACHE_DICT w) w).2 in
  let v := PStr "site page" in
  @make_url_request_using_cache Samples.park_service url (CACHE_DICT w) w = (Ok v, w1) ∧
  misses url (CACHE_DICT w) w = true ∧
  @disk_cached Samples.park_service Fixture.site w = true ∧
  @disk_cached Samples.park_service Fixture.site w1 = false.
Proof.
  intros url w w1 v.
  assert (Hrun : @make_url_request_using_cache Samples.park_service url (CACHE_DICT w) w
                 = (Ok v, w1)) by (vm_compute; reflexivity).
  assert (Hmiss : misses url (CACHE_DICT w) w = true) by (vm_compute; reflexivity).
  split; [exact Hrun|]. split; [exact Hmiss|]. split; [vm_compute; reflexivity|].
  destruct (@url_miss_replaces_file Samples.park_service url (CACHE_DICT w) w w1 v
              Hrun Hmiss) as (d & Hd & _ & _ & Hgone).
  assert (Hempty : d = []) by (vm_compute in Hd; by injection Hd as <-).
  subst d. apply Hgone.
  - vm_compute. reflexivity.
  - vm_compute. discriminate.
  - reflexivity.
Defined.

Lemma start_then_fetch_hits_example :
  let url := "https://www.nps.gov/isro" in
  let d := [(url, PStr "page")] in
  on_disk Samples.saved = PDict d ∧
  dict_get url d = Some (PStr "page") ∧
  ∃ w1, module_init Samples.saved = (Ok (), w1) ∧
        heap w1 !! CACHE_DICT w1 = Some (PDict d) ∧
        make_url_request_using_cache url (CACHE_DICT w1) w1
        = (Ok (PStr "page"), logged w1 [EvPrint "Using cache"]).
Proof.
  intros url d.
  assert (Hd : on_disk Samples.saved = PDict d) by (vm_compute; reflexivity).
  assert (Hv : dict_get url d = Some (PStr "page")) by reflexivity.
  split; [exact Hd|]. split; [exact Hv|].
  exact (start_then_fetch_hits url Samples.saved d (PStr "page") Hd Hv).
Defined.

Lemma fetch_on_non_dict_cache_example :
  is_dict (on_disk Samples.list_file) = false ∧
  (∀ site, ∃ w1, get_nearby_places site Samples.list_file = (Raise AttributeError, w1) ∧
                 count is_get (trace w1) = count is_get (trace Samples.list_file)) ∧
  ∃ w0, module_init Samples.list_file = (Ok (), w0) ∧
        ∀ url, make_url_request_using_cache url (CACHE_DICT w0) w0
               = (Raise AttributeError, w0).
Proof.
  assert (Hnot : is_dict (on_disk Samples.list_file) = false) by (vm_compute; reflexivity).
  split; [exact Hnot|].
  exact (fetch_on_non_dict_cache Samples.list_file Hnot).
Defined.

Lemma region_index_names_example :
  let dropdown :=
    NTag "ul" [("class", AList ["dropdown-menu"; "SearchBar-keywordSearch"])]
      [NTag "li" []
         [NTag "a" [("href", AStr "/state/mi/index.htm")] [NText " Michigan "]]] in
  let states_dict := [("michigan", "https://www.nps.gov/state/mi/index.htm")] in
  find None (Some ("class", "dropdown-menu SearchBar-keywordSearch")) Fixture.index_page
  = Some dropdown ∧
  Forall (λ li, ∀ e, entry_of li = Some e → is_ascii e.1 = true)
    (find_all (Some "li") None dropdown) ∧
  extract_region_index Fixture.index_page = Ok states_dict ∧
  ∀ state_name state_url, (state_name, state_url) ∈ states_dict →
    is_ascii state_name = true ∧
    lower state_name = state_name ∧
    lower_ascii state_name = state_name ∧
    ∃ path, state_url = BASE_URL ++ path.
Proof.
  intros dropdown states_dict.
  assert (Hdd : find None (Some ("class", "dropdown-menu SearchBar-keywordSearch"))
                  Fixture.index_page = Some dropdown) by (vm_compute; reflexivity).
  assert (Htexts : Forall (λ li, ∀ e, entry_of li = Some e → is_ascii e.1 = true)
                     (find_all (Some "li") None dropdown)).
  { vm_compute find_all. repeat constructor. vm_compute. by intros e [= <-]. }
  assert (Hrun : extract_region_index Fixture.index_page = Ok states_dict)
    by (vm_compute; reflexivity).
  split; [exact Hdd|]. split; [exact Htexts|]. split; [exact Hrun|].
  exact (region_index_names_are_lower_case Fixture.index_page dropdown states_dict
           Hdd Htexts Hrun).
Defined.

(** The second entry of the dropdown has no anchor: no index at all. *)
Lemma region_index_failures_example :
  extract_region_index Samples.broken_index_page = Raise TypeError.
Proof.
  destruct (region_index_failures Samples.broken_index_page) as [_ Hfail].
  destruct (Hfail _ eq_refl) as [_ Hentry].
  refine (proj1 (Hentry
    [NTag "li" [] [NTag "a" [("href", AStr "/state/mi/index.htm")] [NText " Michigan "]]]
    (NTag "li" [] [NText "Ohio"]) [] eq_refl _) eq_refl).
  repeat constructor. vm_compute. eauto.
Defined.

Lemma get_sites_for_state_example :
  let w := Fixture.fresh in
  let site := mkNationalSite "National Park" "Isle Royale" "Houghton, MI" "49931"
                "(906) 482-0984" in
  let w1 := (@get_sites_for_state Samples.park_service Samples.state_url w).2 in
  @get_sites_for_state Samples.park_service Samples.state_url w = (Ok [site; site], w1) ∧
  count is_get (trace w1) = 3%nat ∧
  (∃ state_text state_soup,
     holds (CACHE_DICT w) Samples.state_url state_text w1 ∧
     @BeautifulSoup Samples.park_service state_text = Ok state_soup ∧
     List.length [site; site] = List.length (rows state_soup) ∧
     Forall2 (@site_of_row Samples.park_service (CACHE_DICT w) w1)
       (rows state_soup) [site; site]).
Proof.
  intros w site w1.
  assert (Hrun : @get_sites_for_state Samples.park_service Samples.state_url w
                 = (Ok [site; site], w1)) by (vm_compute; reflexivity).
  split; [exact Hrun|]. split; [vm_compute; reflexivity|].
  exact (@get_sites_for_state_lists_rows Samples.park_service
           Samples.state_url w w1 [site; site] Hrun).
Defined.

Lemma get_sites_for_state_twice_example :
  let w := Fixture.fresh in
  let site := mkNationalSite "National Park" "Isle Royale" "Houghton, MI" "49931"
                "(906) 482-0984" in
  let w1 := (@get_sites_for_state Samples.park_service Samples.state_url w).2 in
  @get_sites_for_state Samples.park_service Samples.state_url w = (Ok [site; site], w1) ∧
  @get_sites_for_state Samples.park_service Samples.state_url w1
  = (Ok [site; site], logged w1 (replicate 3 (EvPrint "Using cache"))).
Proof.
  intros w site w1.
  assert (Hrun : @get_sites_for_state Samples.park_service Samples.state_url w
                 = (Ok [site; site], w1)) by (vm_compute; reflexivity).
  split; [exact Hrun|].
  exact (@get_sites_for_state_twice Samples.park_service
           Samples.state_url w w1 [site; site] Hrun).
Defined.



Lemma formatted_nearby_places_example :
  let results :=
    PList [Fixture.result_with_empty_address;
           PDict [("fields", PDict [("name", PStr "Inn");
                                    ("group_sic_code_ext", PStr "701101");
                                    ("group_sic_code_name_ext", PStr "Hotels");
                                    ("address", PStr "1 Main St");
                                    ("city", PStr "Houghton")])]] in
  let places :=
    [mkNearbyPlace (PStr "Cafe") (PStr "no category") (PStr "no address") (PStr "Houghton");
     mkNearbyPlace (PStr "Inn") (PStr "Hotels") (PStr "1 Main St") (PStr "Houghton")] in
  formatted_nearby_places Samples.two_results Fixture.fresh
  = (Ok (), logged Fixture.fresh
              [EvPrint "- Cafe (no category): no address, Houghton";
               EvPrint "- Inn (Hotels): 1 Main St, Houghton"]).
Proof.
  intros results places.
  refine (proj1 (@formatted_nearby_places_prints Fixture.externals)
            Samples.two_results results places Fixture.fresh eq_refl eq_refl _).
  intros [|[|i]] p Hp; simplify_eq/=; reflexivity.
Defined.

Lemma missing_postal_code_example :
  let site := mkNationalSite "National Park" "Isle Royale" "No address" "No zipcode"
                "(906) 482-0984" in
  extract_site_record Fixture.bare_site_page = Ok site ∧
  postal_tag Fixture.bare_site_page = None ∧
  on_disk Fixture.fresh = PDict [] ∧
  dict_get (construct_unique_key mapquest_url (nearby_params site)) []
  = (None : option pyval) ∧
  ∃ params, EvGet mapquest_url params ∈ trace (get_nearby_places site Fixture.fresh).2 ∧
            dict_get "origin" params = Some (PStr "No zipcode").
Proof.
  intros site.
  assert (Hsite : extract_site_record Fixture.bare_site_page = Ok site)
    by (vm_compute; reflexivity).
  assert (Hzip : postal_tag Fixture.bare_site_page = None) by reflexivity.
  assert (Hd : on_disk Fixture.fresh = PDict []) by reflexivity.
  assert (Hmiss : dict_get (construct_unique_key mapquest_url (nearby_params site)) []
                  = (None : option pyval)) by reflexivity.
  split; [exact Hsite|]. split; [exact Hzip|]. split; [exact Hd|]. split; [exact Hmiss|].
  exact (missing_postal_code_becomes_origin Fixture.bare_site_page site Fixture.fresh []
           Hsite Hzip Hd Hmiss).
Defined.

Lemma build_state_url_dict_twice_example :
  let w := Fixture.fresh in
  let states_dict := [("michigan", "https://www.nps.gov/state/mi/index.htm")] in
  let w1 := (build_state_url_dict w).2 in
  build_state_url_dict w = (Ok states_dict, w1) ∧
  build_state_url_dict w1 = (Ok states_dict, logged w1 [EvPrint "Using cache"]).
Proof.
  intros w states_dict w1.
  assert (Hrun : build_state_url_dict w = (Ok states_dict, w1))
    by (vm_compute; reflexivity).
  split; [exact Hrun|].
  exact (build_state_url_dict_twice w w1 states_dict Hrun).
Defined.
